(** * libbcc: the RenderScript compilation unit and its persistent cache

    A shallow embedding of [lib/ExecutionEngine/RSScript.cpp] (the cache
    orchestrator: the per-unit state machine, the read path, the compile
    path and the write path) and of the inline part of
    [lib/ExecutionEngine/MCCacheReader.h] (the reader's dependency map, its
    symbol callback and its sticky context-slot flag).

    Conventions.
    - [size_t], [int] and pointers are [Z]; the null pointer is [0] where
      the pointer is only passed along, and [None] where the code tests or
      dereferences it ([char const *] arguments, [mCompiled], [mCached],
      function pointers).
    - The collaborators the code calls but does not define (property store,
      file locks, files, compiler, cache writer) are fields of [Env]; every
      call to one of them is recorded as an [Event] in program order.
    - The object state, the file system and the event log are threaded
      through a small state monad, so that each C++ statement is one line. *)

From Stdlib Require Import ZArith Ascii.
From stdpp Require Import gmap strings list fin_maps.

Local Open Scope Z_scope.
Local Open Scope string_scope.

(** ** Enumerations and plain data *)

Module ScriptStatus.
Inductive Enum := Unknown | Compiled | Cached.

#[global] Instance Enum_eq_dec : EqDecision Enum.
Proof. solve_decision. Defined.
End ScriptStatus.

Module ScriptObject.
Inductive Enum := Unknown | Relocatable | SharedObject | Executable.

#[global] Instance Enum_eq_dec : EqDecision Enum.
Proof. solve_decision. Defined.
End ScriptObject.

(** The error codes the orchestrator assigns to [mErrorCode]. *)
Inductive BCCenum := BCC_NO_ERROR | BCC_INVALID_OPERATION | BCC_OUT_OF_MEMORY.

#[global] Instance BCCenum_eq_dec : EqDecision BCCenum.
Proof. solve_decision. Defined.

(** A SHA-1 digest is a sequence of bytes; a stored one has 20 of them. *)
Abbreviation SHA1 := (list Z) (only parsing).

(** The type [BCCSymbolLookupFn]: a function from a context pointer and a
    symbol name to an address. *)
Abbreviation BCCSymbolLookupFn := (Z -> string -> Z) (only parsing).

(** [FileBase::kReadLock], [FileBase::kWriteLock] *)
Inductive LockKind := kReadLock | kWriteLock.

(** The two companion files of one cached unit. *)
Inductive CacheFile := ObjFile | InfoFile.

#[global] Instance LockKind_eq_dec : EqDecision LockKind.
Proof. solve_decision. Defined.
#[global] Instance CacheFile_eq_dec : EqDecision CacheFile.
Proof. solve_decision. Defined.

(** [RSScript::SourceDependency]: the constructor copies [sizeof(mSHA1)]
    bytes of the digest it is given. *)
Module SourceDependency.
Record t := mk { mSourceName : string; mSHA1 : SHA1 }.

Definition new (pSourceName : string) (pSHA1 : SHA1) : t :=
  {| mSourceName := pSourceName; mSHA1 := take 20 pSHA1 |}.

Definition getSourceName (d : t) : string := mSourceName d.
Definition getSHA1Checksum (d : t) : SHA1 := mSHA1 d.
End SourceDependency.

(** ** The two artifact representations

    [ScriptCompiled] and [ScriptCached] are defined elsewhere; the
    orchestrator only calls their accessors, so each is the record of what
    those accessors answer. *)
Module ScriptCompiled.
Record t := mk {
  getExportVarCount : Z;
  getExportFuncCount : Z;
  getExportForEachCount : Z;
  getPragmaCount : Z;
  getFuncCount : Z;
  getObjectSlotCount : Z;
  getELFSize : Z;
  getELF : Z;
  getCompilerErrorMessage : option string
}.
End ScriptCompiled.

Module ScriptCached.
Record t := mk {
  getExportVarCount : Z;
  getExportFuncCount : Z;
  getExportForEachCount : Z;
  getPragmaCount : Z;
  getFuncCount : Z;
  getObjectSlotCount : Z;
  getELFSize : Z;
  getELF : Z;
  isLibRSThreadable : bool
}.
End ScriptCached.

(** ** Events: the calls that leave the compilation unit *)

Inductive Event :=
  | ALOGE (fmt : string)
  | FileMutex_new (k : LockKind) (f : CacheFile) (path : string)
  | FileMutex_lock (k : LockKind) (f : CacheFile) (path : string) (granted : bool)
  | InputFile_new (f : CacheFile) (path : string)
  | OutputFile_new (f : CacheFile) (path : string)
  | Reader_checkCacheFile (hit : bool)
  | Reader_readCacheFile (hit : bool)
  | Writer_writeCacheFile (ok : bool)
  | File_truncate (f : CacheFile) (path : string)
  | File_close (f : CacheFile) (path : string)
  | Sys_unlink (path : string) (rc : Z)
  | SymbolLookup (context : Z) (name : string)
  | ScriptCompiled_new (ok : bool)
  | ScriptCompiled_readModule (rc : Z)
  | ScriptCompiled_compile (rc : Z)
  | RegisterObjectWithGDB (elf size : Z).

#[global] Instance Event_eq_dec : EqDecision Event.
Proof. solve_decision. Defined.

(** ** The cache reader *)

(** Modelled from the spec: the info file's binary layout. The [MCO_]
    structures and the bodies of the reader's private [read...] and
    [check...] members are not under src/, so the stages that only look at
    the layout are taken as decision procedures on the info file's bytes, and
    the tables the later stages compare are taken as decoders. The host's
    global-slot layout ([contextSlotAvail]) and the construction of the
    in-memory artifact ([materialize]) are given the same way. *)
Record CacheFormat := {
  checkFileSize : list Z -> bool;
  checkHeader : list Z -> bool;
  checkMachineIntType : list Z -> bool;
  checkSectionOffsetAndSize : list Z -> bool;
  checkStringPool : list Z -> bool;
  cachedDependTable : list Z -> list (string * SHA1);
  objectSlotList : list Z -> list Z;
  relocationTable : list Z -> list (string * Z);
  contextSlotAvail : Z -> bool;
  materialize : list Z -> list Z -> ScriptCached.t
}.

Module MCCacheReader.

(** The members of [class MCCacheReader] that outlive one call: the
    dependency map ([std::map<std::string, unsigned char const *>]), the
    sticky flag and the symbol callback. *)
Record t := mk {
  mDependencies : gmap string SHA1;
  mIsContextSlotNotAvail : bool;
  mpSymbolLookupFn : option BCCSymbolLookupFn;
  mpSymbolLookupContext : Z
}.

(** The constructor; the callback members it leaves unset read as null. *)
Definition new : t :=
  {| mDependencies := ∅; mIsContextSlotNotAvail := false;
     mpSymbolLookupFn := None; mpSymbolLookupContext := 0 |}.

(** [mDependencies.insert(std::make_pair(resName, sha1))]: [std::map::insert]
    leaves the map alone when the key is already there. *)
Definition addDependency (resName : string) (sha1 : SHA1) (r : t) : t :=
  match mDependencies r !! resName with
  | Some _ => r
  | None =>
      {| mDependencies := <[resName := sha1]> (mDependencies r);
         mIsContextSlotNotAvail := mIsContextSlotNotAvail r;
         mpSymbolLookupFn := mpSymbolLookupFn r;
         mpSymbolLookupContext := mpSymbolLookupContext r |}
  end.

Definition isContextSlotNotAvail (r : t) : bool := mIsContextSlotNotAvail r.

Definition registerSymbolCallback
    (pFn : option BCCSymbolLookupFn) (pContext : Z) (r : t) : t :=
  {| mDependencies := mDependencies r;
     mIsContextSlotNotAvail := mIsContextSlotNotAvail r;
     mpSymbolLookupFn := pFn; mpSymbolLookupContext := pContext |}.

(** A run of [addDependency] calls, first call first. *)
Definition addDependencies (l : list (string * SHA1)) (r : t) : t :=
  foldl (fun acc d => addDependency d.1 d.2 acc) r l.

(** Modelled from the spec: [MCCacheReader::checkDependency] (declared in
    the header, defined outside src/). Section 4.2 stage 6: identical entry
    count, and for each stored (name, digest) pair the caller's ledger holds
    the same name with an identical digest. *)
Definition checkDependency (r : t) (stored : list (string * SHA1)) : bool :=
  bool_decide (size (mDependencies r) = length stored)
  && forallb (fun d => bool_decide (mDependencies r !! d.1 = Some d.2)) stored.

(** Modelled from the spec: [MCCacheReader::checkContext] (declared in the
    header, defined outside src/). Section 4.2 stage 7: the recorded
    object-slot list must fit the host's slot layout; if not, validation
    fails and the sticky flag is raised. *)
Definition checkContext (fmt : CacheFormat) (info : list Z) (r : t) : bool * t :=
  if forallb (contextSlotAvail fmt) (objectSlotList fmt info) then (true, r)
  else (false,
        {| mDependencies := mDependencies r;
           mIsContextSlotNotAvail := true;
           mpSymbolLookupFn := mpSymbolLookupFn r;
           mpSymbolLookupContext := mpSymbolLookupContext r |}).

(** Modelled from the spec: [MCCacheReader::relocate] (declared in the
    header, defined outside src/). Section 4.2 stage 8: every relocation
    entry's symbol is looked up through the registered callback; a symbol
    that does not resolve fails the read. Only resolution is modelled, not
    the bytes patched. *)
Definition relocate (fmt : CacheFormat) (info : list Z) (r : t) : bool :=
  forallb
    (fun e : string * Z =>
       match mpSymbolLookupFn r with
       | Some fn => negb (Z.eqb (fn (mpSymbolLookupContext r) e.1) 0)
       | None => false
       end)
    (relocationTable fmt info).

(** Modelled from the spec: [MCCacheReader::checkCacheFile] (declared in the
    header, defined outside src/). Section 4.2: stages 1 to 7, each
    short-circuiting on failure; no artifact is built. *)
Definition checkCacheFile
    (fmt : CacheFormat) (obj info : list Z) (r : t) : bool * t :=
  if negb (checkFileSize fmt info) then (false, r)
  else if negb (checkHeader fmt info) then (false, r)
  else if negb (checkMachineIntType fmt info) then (false, r)
  else if negb (checkSectionOffsetAndSize fmt info) then (false, r)
  else if negb (checkStringPool fmt info) then (false, r)
  else if negb (checkDependency r (cachedDependTable fmt info)) then (false, r)
  else checkContext fmt info r.

(** Modelled from the spec: [MCCacheReader::readCacheFile] (declared in the
    header, defined outside src/). Section 4.2: full validation, then
    relocation, then the artifact; [None] is the null result. *)
Definition readCacheFile
    (fmt : CacheFormat) (obj info : list Z) (r : t)
    : option ScriptCached.t * t :=
  let '(ok, r') := checkCacheFile fmt obj info r in
  if ok then
    if relocate fmt info r' then (Some (materialize fmt obj info), r')
    else (None, r')
  else (None, r').

End MCCacheReader.

(** ** The collaborators *)

(** What the orchestrator consumes and does not define: the property store
    read by [property_get], the build-time switch [TARGET_BUILD], the
    library digests of [Sha1Helper], the two path builders declared in the
    class header, the outcome of every lock, open and unlink, the compiler
    behind [ScriptCompiled], the cache writer, and the info-file layout the
    reader decodes. *)
Record Env := {
  props : gmap string string;
  TARGET_BUILD : bool;
  pathLibBCC_SHA1 : string;
  sha1LibBCC_SHA1 : SHA1;
  pathLibRS : string;
  sha1LibRS : SHA1;
  cachedObjectPath : string -> string -> string;
  cacheInfoPath : string -> string -> string;
  FileMutex_hasError : LockKind -> string -> bool;
  FileMutex_granted : LockKind -> string -> bool;
  InputFile_fails : string -> bool;
  OutputFile_hasError : string -> bool;
  unlink_rc : string -> Z;
  new_SourceDependency_ok : bool;
  new_ScriptCompiled : option ScriptCompiled.t;
  readModule_rc : Z;
  compile_rc : Z;
  writeCacheFile :
    list (string * SHA1) -> ScriptCompiled.t -> Z -> bool * list Z * list Z;
  format : CacheFormat
}.

(** [property_get(key, buf, default)]: the stored value, or the default
    when the property is missing or empty. *)
Definition property_get (env : Env) (key default : string) : string :=
  match props env !! key with
  | Some v => if bool_decide (v = "") then default else v
  | None => default
  end.

(** The helper of the anonymous namespace:
    [property_get(str, buf, "0"); return strcmp(buf, "0") != 0;] *)
Definition getBooleanProp (env : Env) (str : string) : bool :=
  let buf := property_get env str "0" in
  negb (bool_decide (buf = "0")).

(** The file system: path to contents. *)
Abbreviation Files := (gmap string (list Z)) (only parsing).

(** [::unlink(path)]: on success the name is gone; the return code is the
    collaborator's. *)
Definition sys_unlink (env : Env) (path : string) (fs : Files) : Files :=
  if bool_decide (unlink_rc env path = 0) then delete path fs else fs.

(** [OutputFile f(path)] without error: the file exists afterwards. *)
Definition open_for_write (path : string) (fs : Files) : Files :=
  match fs !! path with
  | Some _ => fs
  | None => <[path := []]> fs
  end.

(** [f.truncate()]: the contents are erased. *)
Definition file_truncate (path : string) (fs : Files) : Files :=
  <[path := []]> fs.

(** ** The compilation unit *)

Module RSScript.

(** The members of [class RSScript] (with those of its base [Script]) that
    RSScript.cpp reads or writes. [mCompiled] and [mCached] are pointers:
    [None] is null or not yet assigned. *)
Record t := mk {
  mErrorCode : BCCenum;
  mStatus : ScriptStatus.Enum;
  mObjectType : ScriptObject.Enum;
  mIsContextSlotNotAvail : bool;
  mpExtSymbolLookupFn : option BCCSymbolLookupFn;
  mpExtSymbolLookupFnContext : Z;
  mSourceDependencies : list SourceDependency.t;
  mCacheDir : string;
  mCacheName : string;
  mCompiled : option ScriptCompiled.t;
  mCached : option ScriptCached.t
}.

Definition set_mErrorCode (v : BCCenum) (s : t) : t :=
  mk v (mStatus s) (mObjectType s) (mIsContextSlotNotAvail s)
     (mpExtSymbolLookupFn s) (mpExtSymbolLookupFnContext s)
     (mSourceDependencies s) (mCacheDir s) (mCacheName s)
     (mCompiled s) (mCached s).

Definition set_mStatus (v : ScriptStatus.Enum) (s : t) : t :=
  mk (mErrorCode s) v (mObjectType s) (mIsContextSlotNotAvail s)
     (mpExtSymbolLookupFn s) (mpExtSymbolLookupFnContext s)
     (mSourceDependencies s) (mCacheDir s) (mCacheName s)
     (mCompiled s) (mCached s).

Definition set_mObjectType (v : ScriptObject.Enum) (s : t) : t :=
  mk (mErrorCode s) (mStatus s) v (mIsContextSlotNotAvail s)
     (mpExtSymbolLookupFn s) (mpExtSymbolLookupFnContext s)
     (mSourceDependencies s) (mCacheDir s) (mCacheName s)
     (mCompiled s) (mCached s).

Definition set_mIsContextSlotNotAvail (v : bool) (s : t) : t :=
  mk (mErrorCode s) (mStatus s) (mObjectType s) v
     (mpExtSymbolLookupFn s) (mpExtSymbolLookupFnContext s)
     (mSourceDependencies s) (mCacheDir s) (mCacheName s)
     (mCompiled s) (mCached s).

Definition set_mpExtSymbolLookupFn (v : option BCCSymbolLookupFn) (s : t) : t :=
  mk (mErrorCode s) (mStatus s) (mObjectType s) (mIsContextSlotNotAvail s)
     v (mpExtSymbolLookupFnContext s)
     (mSourceDependencies s) (mCacheDir s) (mCacheName s)
     (mCompiled s) (mCached s).

Definition set_mpExtSymbolLookupFnContext (v : Z) (s : t) : t :=
  mk (mErrorCode s) (mStatus s) (mObjectType s) (mIsContextSlotNotAvail s)
     (mpExtSymbolLookupFn s) v
     (mSourceDependencies s) (mCacheDir s) (mCacheName s)
     (mCompiled s) (mCached s).

Definition set_mSourceDependencies (v : list SourceDependency.t) (s : t) : t :=
  mk (mErrorCode s) (mStatus s) (mObjectType s) (mIsContextSlotNotAvail s)
     (mpExtSymbolLookupFn s) (mpExtSymbolLookupFnContext s)
     v (mCacheDir s) (mCacheName s)
     (mCompiled s) (mCached s).

Definition set_mCacheDir (v : string) (s : t) : t :=
  mk (mErrorCode s) (mStatus s) (mObjectType s) (mIsContextSlotNotAvail s)
     (mpExtSymbolLookupFn s) (mpExtSymbolLookupFnContext s)
     (mSourceDependencies s) v (mCacheName s)
     (mCompiled s) (mCached s).

Definition set_mCacheName (v : string) (s : t) : t :=
  mk (mErrorCode s) (mStatus s) (mObjectType s) (mIsContextSlotNotAvail s)
     (mpExtSymbolLookupFn s) (mpExtSymbolLookupFnContext s)
     (mSourceDependencies s) (mCacheDir s) v
     (mCompiled s) (mCached s).

Definition set_mCompiled (v : option ScriptCompiled.t) (s : t) : t :=
  mk (mErrorCode s) (mStatus s) (mObjectType s) (mIsContextSlotNotAvail s)
     (mpExtSymbolLookupFn s) (mpExtSymbolLookupFnContext s)
     (mSourceDependencies s) (mCacheDir s) (mCacheName s)
     v (mCached s).

Definition set_mCached (v : option ScriptCached.t) (s : t) : t :=
  mk (mErrorCode s) (mStatus s) (mObjectType s) (mIsContextSlotNotAvail s)
     (mpExtSymbolLookupFn s) (mpExtSymbolLookupFnContext s)
     (mSourceDependencies s) (mCacheDir s) (mCacheName s)
     (mCompiled s) v.

(** *** State that does not leave the object *)

(** [RSScript::resetState]. [llvm::DeleteContainerPointers] deletes every
    element and clears the vector. The two callback members are left as
    they are (the FIXME in the source). *)
Definition resetState (s : t) : t :=
  let s := set_mErrorCode BCC_NO_ERROR s in
  let s := set_mStatus ScriptStatus.Unknown s in
  let s := set_mObjectType ScriptObject.Unknown s in
  let s := set_mIsContextSlotNotAvail false s in
  set_mSourceDependencies [] s.

(** [RSScript::doReset] *)
Definition doReset (s : t) : bool * t := (true, resetState s).

(** [RSScript::RSScript(Source &)]: both callback members null, then
    [resetState()]; the strings start empty. *)
Definition new : t :=
  resetState
    (mk BCC_NO_ERROR ScriptStatus.Unknown ScriptObject.Unknown false
        None 0 [] "" "" None None).

(** [RSScript::addSourceDependency] *)
Definition addSourceDependency
    (env : Env) (pSourceName : string) (pSHA1 : SHA1) (s : t) : bool * t :=
  if new_SourceDependency_ok env then
    (true,
     set_mSourceDependencies
       (mSourceDependencies s ++ [SourceDependency.new pSourceName pSHA1]) s)
  else (false, s).

(** [RSScript::isCacheable] *)
Definition isCacheable (env : Env) (s : t) : bool :=
  if getBooleanProp env "debug.bcc.nocache" then false
  else if bool_decide (mCacheDir s = "") || bool_decide (mCacheName s = "")
  then false
  else true.

(** [getCachedObjectPath()], [getCacheInfoPath()] *)
Definition getCachedObjectPath (env : Env) (s : t) : string :=
  cachedObjectPath env (mCacheDir s) (mCacheName s).

Definition getCacheInfoPath (env : Env) (s : t) : string :=
  cacheInfoPath env (mCacheDir s) (mCacheName s).

(** *** The export accessors

    Each [const] accessor switches on [mStatus] and forwards to the
    artifact of that state. The result is [None] exactly when the forwarded
    call would go through a null pointer. *)

Definition dispatch {A : Type}
    (compiled : ScriptCompiled.t -> A) (cached : ScriptCached.t -> A)
    (default : A) (s : t) : option A :=
  match mStatus s with
  | ScriptStatus.Compiled => compiled <$> mCompiled s
  | ScriptStatus.Cached => cached <$> mCached s
  | ScriptStatus.Unknown => Some default
  end.

Definition getExportVarCount : t -> option Z :=
  dispatch ScriptCompiled.getExportVarCount ScriptCached.getExportVarCount 0.

Definition getExportFuncCount : t -> option Z :=
  dispatch ScriptCompiled.getExportFuncCount ScriptCached.getExportFuncCount 0.

Definition getExportForEachCount : t -> option Z :=
  dispatch ScriptCompiled.getExportForEachCount
           ScriptCached.getExportForEachCount 0.

Definition getPragmaCount : t -> option Z :=
  dispatch ScriptCompiled.getPragmaCount ScriptCached.getPragmaCount 0.

Definition getFuncCount : t -> option Z :=
  dispatch ScriptCompiled.getFuncCount ScriptCached.getFuncCount 0.

Definition getObjectSlotCount : t -> option Z :=
  dispatch ScriptCompiled.getObjectSlotCount ScriptCached.getObjectSlotCount 0.

Definition getELFSize : t -> option Z :=
  dispatch ScriptCompiled.getELFSize ScriptCached.getELFSize 0.

(** The null pointer is [0]. *)
Definition getELF : t -> option Z :=
  dispatch ScriptCompiled.getELF ScriptCached.getELF 0.

(** *** The machine: object, file system, event log *)

Record Machine := mkMachine {
  self : t;
  files : Files;
  log : list Event
}.

(** A computation either goes through a null pointer ([None]) or returns a
    value and the next machine. *)
Definition M (A : Type) : Type := Machine -> option (A * Machine).

#[global] Instance M_ret : MRet M := fun A x m => Some (x, m).

#[global] Instance M_bind : MBind M :=
  fun A B f c m =>
    match c m with
    | Some (x, m') => f x m'
    | None => None
    end.

Definition get_self : M t := fun m => Some (self m, m).

Definition modify_self (f : t -> t) : M unit :=
  fun m => Some (tt, mkMachine (f (self m)) (files m) (log m)).

Definition get_files : M Files := fun m => Some (files m, m).

Definition modify_files (f : Files -> Files) : M unit :=
  fun m => Some (tt, mkMachine (self m) (f (files m)) (log m)).

Definition emit (e : Event) : M unit :=
  fun m => Some (tt, mkMachine (self m) (files m) (log m ++ [e])).

(** Dereferencing a pointer. *)
Definition deref {A : Type} (p : option A) : M A :=
  fun m => match p with Some a => Some (a, m) | None => None end.

(** Lifting a [const] accessor. *)
Definition call {A : Type} (f : t -> option A) : M A :=
  s ← get_self; deref (f s).

(** [RSScript::getCompilerErrorMessage] *)
Definition getCompilerErrorMessage : M (option string) :=
  s ← get_self;
  if bool_decide (mStatus s ≠ ScriptStatus.Compiled) then
    modify_self (set_mErrorCode BCC_INVALID_OPERATION);;
    mret None
  else
    c ← deref (mCompiled s);
    mret (ScriptCompiled.getCompilerErrorMessage c).

(** [RSScript::registerSymbolCallback] *)
Definition registerSymbolCallback
    (pFn : option BCCSymbolLookupFn) (pContext : Z) : M Z :=
  modify_self (set_mpExtSymbolLookupFn pFn);;
  modify_self (set_mpExtSymbolLookupFnContext pContext);;
  s ← get_self;
  if bool_decide (mStatus s ≠ ScriptStatus.Unknown) then
    modify_self (set_mErrorCode BCC_INVALID_OPERATION);;
    emit (ALOGE "Invalid operation: %s\n");;
    mret 1
  else mret 0.

(** [objFileMutex.hasError() || !objFileMutex.lock()], negated: [lock()]
    is only called on a mutex without error. *)
Definition acquire
    (env : Env) (k : LockKind) (f : CacheFile) (path : string) : M bool :=
  if FileMutex_hasError env k path then mret false
  else
    emit (FileMutex_lock k f path (FileMutex_granted env k path));;
    mret (FileMutex_granted env k path).

(** [InputFile f(path)]: the contents, or [None] when [f.hasError()]. A
    file that does not exist cannot be opened for reading. *)
Definition InputFile_open
    (env : Env) (path : string) (fs : Files) : option (list Z) :=
  if InputFile_fails env path then None else fs !! path.

(** [*str.rbegin()] of a non-empty string. *)
Fixpoint last_char (str : string) : option ascii :=
  match str with
  | EmptyString => None
  | String c EmptyString => Some c
  | String _ rest => last_char rest
  end.

(** The reader's dependency ledger, in the order of the calls. *)
Definition reader_ledger (env : Env) (s : t) : list (string * SHA1) :=
  [(pathLibBCC_SHA1 env, sha1LibBCC_SHA1 env);
   (pathLibRS env, sha1LibRS env)]
  ++ map (fun d => (SourceDependency.getSourceName d,
                    SourceDependency.getSHA1Checksum d))
         (mSourceDependencies s).

(** The reader as set up by [internalLoadCache]: constructed, the callback
    registered when there is one, the dependencies added. *)
Definition make_reader (env : Env) (s : t) : MCCacheReader.t :=
  let reader := MCCacheReader.new in
  let reader :=
    match mpExtSymbolLookupFn s with
    | Some fn =>
        MCCacheReader.registerSymbolCallback
          (Some fn) (mpExtSymbolLookupFnContext s) reader
    | None => reader
    end in
  MCCacheReader.addDependencies (reader_ledger env s) reader.

Arguments make_reader : simpl never.

(** The first statements of [internalLoadCache]: set the cache file name,
    then set [mCacheDir] and make sure it ends with a slash
    ([if (!mCacheDir.empty() && *mCacheDir.rbegin() != '/')
      mCacheDir.push_back('/')]). *)
Definition store_cache_names (dir name : string) : M unit :=
  modify_self (set_mCacheName name);;
  modify_self (set_mCacheDir dir);;
  s ← get_self;
  if negb (bool_decide (mCacheDir s = ""))
     && negb (bool_decide (last_char (mCacheDir s) = Some "/"%char))
  then modify_self (set_mCacheDir (mCacheDir s ++ "/"))
  else mret tt.

(** [RSScript::internalLoadCache] *)
Definition internalLoadCache
    (env : Env) (cacheDir cacheName : option string) (checkOnly : bool) : M Z :=
  match cacheDir, cacheName with
  | Some dir, Some name =>
      store_cache_names dir name;;
      s ← get_self;
      if negb (isCacheable env s) then mret 1
      else
        let objPath := getCachedObjectPath env s in
        let infoPath := getCacheInfoPath env s in
        emit (FileMutex_new kReadLock ObjFile objPath);;
        emit (FileMutex_new kReadLock InfoFile infoPath);;
        objLocked ← acquire env kReadLock ObjFile objPath;
        if negb objLocked then
          emit (ALOGE "Unable to acquire the lock for %s! (%s)");;
          mret 1
        else
          infoLocked ← acquire env kReadLock InfoFile infoPath;
          if negb infoLocked then
            emit (ALOGE "Unable to acquire the lock for %s! (%s)");;
            mret 1
          else
            emit (InputFile_new ObjFile objPath);;
            emit (InputFile_new InfoFile infoPath);;
            fs ← get_files;
            match InputFile_open env objPath fs with
            | None =>
                emit (ALOGE "Unable to open %s for reading! (%s)");;
                mret 1
            | Some objFile =>
                match InputFile_open env infoPath fs with
                | None =>
                    emit (ALOGE "Unable to open %s for reading! (%s)");;
                    mret 1
                | Some infoFile =>
                    let reader := make_reader env s in
                    if checkOnly then
                      let hit :=
                        (MCCacheReader.checkCacheFile
                           (format env) objFile infoFile reader).1 in
                      emit (Reader_checkCacheFile hit);;
                      mret (if hit then 0 else 1)
                    else
                      let '(cached, reader) :=
                        MCCacheReader.readCacheFile
                          (format env) objFile infoFile reader in
                      emit (Reader_readCacheFile (bool_decide (is_Some cached)));;
                      match cached with
                      | None =>
                          modify_self
                            (set_mIsContextSlotNotAvail
                               (MCCacheReader.isContextSlotNotAvail reader));;
                          mret 1
                      | Some c =>
                          modify_self (set_mCached (Some c));;
                          modify_self (set_mStatus ScriptStatus.Cached);;
                          (if negb (ScriptCached.isLibRSThreadable c)
                              && bool_decide (is_Some (mpExtSymbolLookupFn s))
                           then emit (SymbolLookup
                                        (mpExtSymbolLookupFnContext s)
                                        "__clearThreadable")
                           else mret tt);;
                          mret 0
                      end
                end
            end
  | _, _ => mret 1
  end.

(** [RSScript::internalCompile]. The record [new_ScriptCompiled] gives is
    what the object's accessors answer once [readModule] and [compile] have
    run with the return codes of [env]. Handing the symbol callback to the
    new object changes nothing the orchestrator can read back, so it leaves
    no trace here. *)
Definition internalCompile (env : Env) : M Z :=
  modify_self (set_mCompiled (new_ScriptCompiled env));;
  emit (ScriptCompiled_new (bool_decide (is_Some (new_ScriptCompiled env))));;
  s ← get_self;
  match mCompiled s with
  | None =>
      modify_self (set_mErrorCode BCC_OUT_OF_MEMORY);;
      emit (ALOGE "Out of memory: %s %d\n");;
      mret 1
  | Some _ =>
      modify_self (set_mStatus ScriptStatus.Compiled);;
      emit (ScriptCompiled_readModule (readModule_rc env));;
      if bool_decide (readModule_rc env ≠ 0) then
        emit (ALOGE "Unable to read source module\n");;
        mret 1
      else
        emit (ScriptCompiled_compile (compile_rc env));;
        if bool_decide (compile_rc env ≠ 0) then
          emit (ALOGE "Unable to compile.\n");;
          mret 1
        else mret 0
  end.

(** The writer's [addDependency] calls of [writeCache], in order: the two
    library digests only under [TARGET_BUILD], then every source
    dependency. *)
Definition writer_ledger (env : Env) (s : t) : list (string * SHA1) :=
  (if TARGET_BUILD env
   then [(pathLibBCC_SHA1 env, sha1LibBCC_SHA1 env);
         (pathLibRS env, sha1LibRS env)]
   else [])
  ++ map (fun d => (SourceDependency.getSourceName d,
                    SourceDependency.getSHA1Checksum d))
         (mSourceDependencies s).

(** The failure branch of [writeCache]: erase both files, close them,
    unlink both names; a failed unlink is logged and nothing more. *)
Definition discard_cache_files (env : Env) (objPath infoPath : string) : M unit :=
  modify_files (file_truncate objPath);;
  emit (File_truncate ObjFile objPath);;
  modify_files (file_truncate infoPath);;
  emit (File_truncate InfoFile infoPath);;
  emit (File_close ObjFile objPath);;
  emit (File_close InfoFile infoPath);;
  modify_files (sys_unlink env objPath);;
  emit (Sys_unlink objPath (unlink_rc env objPath));;
  (if bool_decide (unlink_rc env objPath ≠ 0)
   then emit (ALOGE "Unable to remove the invalid cache file: %s. (reason: %s)\n")
   else mret tt);;
  modify_files (sys_unlink env infoPath);;
  emit (Sys_unlink infoPath (unlink_rc env infoPath));;
  (if bool_decide (unlink_rc env infoPath ≠ 0)
   then emit (ALOGE "Unable to remove the invalid cache file: %s. (reason: %s)\n")
   else mret tt).

(** [RSScript::writeCache] *)
Definition writeCache (env : Env) : M Z :=
  s ← get_self;
  if bool_decide (mStatus s ≠ ScriptStatus.Compiled) then mret 1
  else
    msg ← getCompilerErrorMessage;
    match msg with
    | None => mret 1
    | Some _ =>
        s ← get_self;
        if isCacheable env s then
          let objPath := getCachedObjectPath env s in
          let infoPath := getCacheInfoPath env s in
          emit (FileMutex_new kWriteLock ObjFile objPath);;
          emit (FileMutex_new kWriteLock InfoFile infoPath);;
          objLocked ← acquire env kWriteLock ObjFile objPath;
          if negb objLocked then
            emit (ALOGE "Unable to acquire the lock for %s! (%s)");;
            mret 1
          else
            infoLocked ← acquire env kWriteLock InfoFile infoPath;
            if negb infoLocked then
              emit (ALOGE "Unable to acquire the lock for %s! (%s)");;
              mret 1
            else
              emit (OutputFile_new ObjFile objPath);;
              (if OutputFile_hasError env objPath then mret tt
               else modify_files (open_for_write objPath));;
              emit (OutputFile_new InfoFile infoPath);;
              (if OutputFile_hasError env infoPath then mret tt
               else modify_files (open_for_write infoPath));;
              if OutputFile_hasError env objPath then
                emit (ALOGE "Unable to open %s for writing! (%s)");;
                mret 1
              else if OutputFile_hasError env infoPath then
                emit (ALOGE "Unable to open %s for writing! (%s)");;
                mret 1
              else
                libRS_threadable ←
                  match mpExtSymbolLookupFn s with
                  | Some fn =>
                      emit (SymbolLookup (mpExtSymbolLookupFnContext s)
                                         "__isThreadable");;
                      mret (fn (mpExtSymbolLookupFnContext s) "__isThreadable"
                            `mod` 2 ^ 32)
                  | None => mret 0
                  end;
                c ← deref (mCompiled s);
                let '(ok, objBytes, infoBytes) :=
                  writeCacheFile env (writer_ledger env s) c libRS_threadable in
                modify_files (fun fs => <[infoPath := infoBytes]>
                                          (<[objPath := objBytes]> fs));;
                emit (Writer_writeCacheFile ok);;
                (if negb ok then discard_cache_files env objPath infoPath
                 else mret tt);;
                mret 0
        else mret 0
    end.

(** The tail of [prepareExecutable] shared by the cache hit and the
    compile path: GDB registration, then the object type. *)
Definition finish_executable (status : Z) : M Z :=
  elf ← call getELF;
  size ← call getELFSize;
  emit (RegisterObjectWithGDB elf size);;
  modify_self (set_mObjectType ScriptObject.Executable);;
  mret status.

(** [RSScript::prepareExecutable] *)
Definition prepareExecutable
    (env : Env) (cacheDir cacheName : option string) (flags : Z) : M Z :=
  s ← get_self;
  if bool_decide (mStatus s ≠ ScriptStatus.Unknown) then
    modify_self (set_mErrorCode BCC_INVALID_OPERATION);;
    emit (ALOGE "Invalid operation: %s\n");;
    mret 1
  else
    status ← internalLoadCache env cacheDir cacheName false;
    if bool_decide (status ≠ 0) then
      status ← internalCompile env;
      if bool_decide (status ≠ 0) then
        _ ← getCompilerErrorMessage;
        emit (ALOGE "LLVM error message: %s\n");;
        mret status
      else
        status ← writeCache env;
        if bool_decide (status ≠ 0) then
          emit (ALOGE "Failed to write the cache for %s\n");;
          mret status
        else finish_executable status
    else finish_executable status.

(** *** The entry points beside [prepareExecutable] *)

(** What [prepareRelocatable] asks of the object file it writes: the width
    of [size_t], the value [objFile.write(buf, n)] returns for this path,
    and what the file holds afterwards. *)
Record ObjectOutput := {
  size_t_bits : Z;
  OutputFile_write : string -> Z -> Z -> Z;
  OutputFile_contents : string -> Z -> Z -> list Z
}.

(** [RSScript::prepareRelocatable]. There is no test of [mStatus]. The
    short-write branch ends in [return false], which is 0 in a function
    returning [int]. The return code of its [::unlink] is not looked at. *)
Definition prepareRelocatable
    (env : Env) (out : ObjectOutput)
    (objPath : string) (RelocModel flags : Z) : M Z :=
  status ← internalCompile env;
  if bool_decide (status ≠ 0) then
    _ ← getCompilerErrorMessage;
    emit (ALOGE "LLVM error message: %s\n");;
    mret status
  else
    emit (OutputFile_new ObjFile objPath);;
    if OutputFile_hasError env objPath then
      emit (ALOGE "Failed to open %s for write. (%s)");;
      mret 1
    else
      modify_files (open_for_write objPath);;
      elf ← call getELF;
      size ← call getELFSize;
      modify_files (fun fs => <[objPath := OutputFile_contents out objPath elf size]> fs);;
      size' ← call getELFSize;
      if bool_decide (OutputFile_write out objPath elf size
                      `mod` 2 ^ size_t_bits out ≠ size')
      then
        emit (File_close ObjFile objPath);;
        modify_files (sys_unlink env objPath);;
        emit (Sys_unlink objPath (unlink_rc env objPath));;
        emit (ALOGE "Unable to write ELF to file %s.\n");;
        mret 0
      else
        modify_self (set_mObjectType ScriptObject.Relocatable);;
        mret 0.

(** [RSScript::prepareSharedObject]: not supported. *)
Definition prepareSharedObject (objPath dsoPath : string) (flags : Z) : M Z :=
  mret 1.

(** What the two artifacts answer to the calls that take a name or fill a
    caller's buffer. A buffer goes in and comes out; [FuncInfo] is a name
    with an address and a size. *)
Record ArtifactViews := {
  compiled_lookup : ScriptCompiled.t -> string -> Z;
  cached_lookup : ScriptCached.t -> string -> Z;
  compiled_getExportVarList : ScriptCompiled.t -> Z -> list Z -> list Z;
  cached_getExportVarList : ScriptCached.t -> Z -> list Z -> list Z;
  compiled_getExportFuncList : ScriptCompiled.t -> Z -> list Z -> list Z;
  cached_getExportFuncList : ScriptCached.t -> Z -> list Z -> list Z;
  compiled_getExportForEachList : ScriptCompiled.t -> Z -> list Z -> list Z;
  cached_getExportForEachList : ScriptCached.t -> Z -> list Z -> list Z;
  compiled_getPragmaList :
    ScriptCompiled.t -> Z -> list Z * list Z -> list Z * list Z;
  cached_getPragmaList :
    ScriptCached.t -> Z -> list Z * list Z -> list Z * list Z;
  compiled_getFuncInfoList :
    ScriptCompiled.t -> Z -> list (string * Z * Z) -> list (string * Z * Z);
  cached_getFuncInfoList :
    ScriptCached.t -> Z -> list (string * Z * Z) -> list (string * Z * Z);
  compiled_getObjectSlotList : ScriptCompiled.t -> Z -> list Z -> list Z;
  cached_getObjectSlotList : ScriptCached.t -> Z -> list Z -> list Z;
  compiled_getExportVarNameList :
    ScriptCompiled.t -> list string -> list string;
  compiled_getExportFuncNameList :
    ScriptCompiled.t -> list string -> list string;
  compiled_getExportForEachNameList :
    ScriptCompiled.t -> list string -> list string
}.

(** [RSScript::lookup] *)
Definition lookup (v : ArtifactViews) (name : string) : M Z :=
  s ← get_self;
  match mStatus s with
  | ScriptStatus.Compiled =>
      c ← deref (mCompiled s); mret (compiled_lookup v c name)
  | ScriptStatus.Cached =>
      c ← deref (mCached s); mret (cached_lookup v c name)
  | ScriptStatus.Unknown =>
      modify_self (set_mErrorCode BCC_INVALID_OPERATION);;
      mret 0
  end.

(** The [switch] with the [DELEGATE(Cached)] and [DELEGATE(Compiled)]
    cases: the artifact of the state fills the buffer; in any other state
    the error code is set and the buffer is left alone. *)
Definition delegate {B : Type}
    (compiled : ScriptCompiled.t -> B -> B) (cached : ScriptCached.t -> B -> B)
    (buf : B) : M B :=
  s ← get_self;
  match mStatus s with
  | ScriptStatus.Cached => c ← deref (mCached s); mret (cached c buf)
  | ScriptStatus.Compiled => c ← deref (mCompiled s); mret (compiled c buf)
  | ScriptStatus.Unknown =>
      modify_self (set_mErrorCode BCC_INVALID_OPERATION);;
      mret buf
  end.

(** The [switch] of the name-list accessors: only the Compiled case
    forwards. *)
Definition delegate_compiled {B : Type}
    (compiled : ScriptCompiled.t -> B -> B) (buf : B) : M B :=
  s ← get_self;
  match mStatus s with
  | ScriptStatus.Compiled => c ← deref (mCompiled s); mret (compiled c buf)
  | _ =>
      modify_self (set_mErrorCode BCC_INVALID_OPERATION);;
      mret buf
  end.

(** [RSScript::getExportVarList] *)
Definition getExportVarList
    (v : ArtifactViews) (varListSize : Z) (varList : list Z) : M (list Z) :=
  delegate (fun c => compiled_getExportVarList v c varListSize)
           (fun c => cached_getExportVarList v c varListSize) varList.

(** [RSScript::getExportVarNameList] *)
Definition getExportVarNameList
    (v : ArtifactViews) (varList : list string) : M (list string) :=
  delegate_compiled (compiled_getExportVarNameList v) varList.

(** [RSScript::getExportFuncList] *)
Definition getExportFuncList
    (v : ArtifactViews) (funcListSize : Z) (funcList : list Z) : M (list Z) :=
  delegate (fun c => compiled_getExportFuncList v c funcListSize)
           (fun c => cached_getExportFuncList v c funcListSize) funcList.

(** [RSScript::getExportFuncNameList] *)
Definition getExportFuncNameList
    (v : ArtifactViews) (funcList : list string) : M (list string) :=
  delegate_compiled (compiled_getExportFuncNameList v) funcList.

(** [RSScript::getExportForEachList] *)
Definition getExportForEachList
    (v : ArtifactViews) (funcListSize : Z) (funcList : list Z) : M (list Z) :=
  delegate (fun c => compiled_getExportForEachList v c funcListSize)
           (fun c => cached_getExportForEachList v c funcListSize) funcList.

(** [RSScript::getExportForEachNameList] *)
Definition getExportForEachNameList
    (v : ArtifactViews) (forEachList : list string) : M (list string) :=
  delegate_compiled (compiled_getExportForEachNameList v) forEachList.

(** [RSScript::getPragmaList]: the key and the value buffer together. *)
Definition getPragmaList
    (v : ArtifactViews) (pragmaListSize : Z) (keyValueList : list Z * list Z)
    : M (list Z * list Z) :=
  delegate (fun c => compiled_getPragmaList v c pragmaListSize)
           (fun c => cached_getPragmaList v c pragmaListSize) keyValueList.

(** [RSScript::getFuncInfoList] *)
Definition getFuncInfoList
    (v : ArtifactViews) (funcInfoListSize : Z)
    (funcInfoList : list (string * Z * Z)) : M (list (string * Z * Z)) :=
  delegate (fun c => compiled_getFuncInfoList v c funcInfoListSize)
           (fun c => cached_getFuncInfoList v c funcInfoListSize) funcInfoList.

(** [RSScript::getObjectSlotList] *)
Definition getObjectSlotList
    (v : ArtifactViews) (objectSlotListSize : Z) (objectSlotList : list Z)
    : M (list Z) :=
  delegate (fun c => compiled_getObjectSlotList v c objectSlotListSize)
           (fun c => cached_getObjectSlotList v c objectSlotListSize)
           objectSlotList.

End RSScript.

(** ** Concrete collaborators, for running the model *)

Module Sample.

Definition compiled : ScriptCompiled.t :=
  ScriptCompiled.mk 2 1 1 0 3 1 128 4096 (Some "").

Definition cached : ScriptCached.t :=
  ScriptCached.mk 2 1 1 0 3 1 128 8192 true.

Definition digest (b : Z) : SHA1 := replicate 20 b.

(** An info file whose layout is sound, that records the dependency table
    [table] and the object slots 3 and 7; the host can reuse the slots
    below [slots]. *)
Definition layout (table : list (string * SHA1)) (slots : Z) : CacheFormat :=
  {| checkFileSize := fun _ => true;
     checkHeader := fun _ => true;
     checkMachineIntType := fun _ => true;
     checkSectionOffsetAndSize := fun _ => true;
     checkStringPool := fun _ => true;
     cachedDependTable := fun _ => table;
     objectSlotList := fun _ => [3; 7];
     relocationTable := fun _ => [];
     contextSlotAvail := fun slot => Z.ltb slot slots;
     materialize := fun _ _ => cached |}.

(** A device build whose cache directory may be locked or read-only, whose
    writer may fail and whose unlink may be refused. *)
Definition env
    (nocache : string) (granted : LockKind -> bool)
    (writable writer_ok : bool) (unlink : Z) (fmt : CacheFormat) : Env :=
  {| props := {[ "debug.bcc.nocache" := nocache ]};
     TARGET_BUILD := true;
     pathLibBCC_SHA1 := "/system/lib/libbcc.so.sha1";
     sha1LibBCC_SHA1 := digest 1;
     pathLibRS := "/system/lib/libRS.so";
     sha1LibRS := digest 2;
     cachedObjectPath := fun dir name => dir ++ name ++ ".o";
     cacheInfoPath := fun dir name => dir ++ name ++ ".o.info";
     FileMutex_hasError := fun _ _ => false;
     FileMutex_granted := fun k _ => granted k;
     InputFile_fails := fun _ => false;
     OutputFile_hasError := fun _ => negb writable;
     unlink_rc := fun _ => unlink;
     new_SourceDependency_ok := true;
     new_ScriptCompiled := Some compiled;
     readModule_rc := 0;
     compile_rc := 0;
     writeCacheFile := fun _ _ _ => (writer_ok, [127; 69; 76; 70], [1; 2; 3]);
     format := fmt |}.

Definition machine (s : RSScript.t) : RSScript.Machine :=
  RSScript.mkMachine s ∅ [].

(** A unit that has been compiled. *)
Definition compiled_unit : RSScript.t :=
  RSScript.set_mCacheName "unit"
    (RSScript.set_mCacheDir "/cache/"
       (RSScript.set_mCompiled (Some compiled)
          (RSScript.set_mStatus ScriptStatus.Compiled RSScript.new))).

(** A unit that has been loaded from the cache. *)
Definition cached_unit : RSScript.t :=
  RSScript.set_mCached (Some cached)
    (RSScript.set_mStatus ScriptStatus.Cached RSScript.new).

End Sample.

(** ** Derived notions used in the statements *)

(** The directory [internalLoadCache] stores: the argument, with a slash
    appended when it is not empty and does not end with one. *)
Definition sanitize (dir : string) : string :=
  if negb (bool_decide (dir = ""))
     && negb (bool_decide (RSScript.last_char dir = Some "/"%char))
  then dir ++ "/" else dir.

(** The unit once [internalLoadCache] has stored the cache name and the
    sanitized directory. *)
Definition with_cache_names (dir name : string) (s : RSScript.t) : RSScript.t :=
  RSScript.set_mCacheDir (sanitize dir) (RSScript.set_mCacheName name s).

(** Scans the events of one cache access for the locking discipline:
    every lock attempt is of kind [k], and the info file's lock is only
    attempted once the object file's has been granted ([held]). *)
Fixpoint ordered_locks (k : LockKind) (held : bool) (tr : list Event) : bool :=
  match tr with
  | [] => true
  | FileMutex_lock k' ObjFile _ granted :: tr' =>
      bool_decide (k' = k) && ordered_locks k (held || granted) tr'
  | FileMutex_lock k' InfoFile _ _ :: tr' =>
      bool_decide (k' = k) && held && ordered_locks k held tr'
  | _ :: tr' => ordered_locks k held tr'
  end.

(** The same discipline on positions of the trace: a lock attempt at
    position [i] is of kind [k], and when it is on the info file, a lock of
    kind [k] on the object file was granted at an earlier position. *)
Definition lock_order (k : LockKind) (tr : list Event) : Prop :=
  forall (i : nat) k' f p g,
    tr !! i = Some (FileMutex_lock k' f p g) ->
    k' = k
    /\ (f = InfoFile ->
        exists (j : nat) p',
          (j < i)%nat /\ tr !! j = Some (FileMutex_lock k ObjFile p' true)).

(** Events that use a cache file: opening it, handing it to the reader or
    the writer, erasing, closing or removing it. *)
Definition cache_file_access (e : Event) : bool :=
  match e with
  | InputFile_new _ _ | OutputFile_new _ _
  | Reader_checkCacheFile _ | Reader_readCacheFile _
  | Writer_writeCacheFile _
  | File_truncate _ _ | File_close _ _ | Sys_unlink _ _ => true
  | _ => false
  end.

(** Whether [e] is a granted lock of kind [k] on the file [f] at [path]. *)
Definition is_granted_lock
    (k : LockKind) (f : CacheFile) (path : string) (e : Event) : bool :=
  match e with
  | FileMutex_lock k' f' path' granted =>
      bool_decide (k' = k) && bool_decide (f' = f) && granted
      && String.eqb path' path
  | _ => false
  end.

(** Scans the events of one cache access for the locks that guard the
    files: [obj] is set once the object file's lock has been granted,
    [info] once the info file's lock has been granted while [obj] was set,
    and an event that uses a cache file is allowed only when [info] is
    set. *)
Fixpoint guarded_access
    (k : LockKind) (objPath infoPath : string) (obj info : bool)
    (tr : list Event) : bool :=
  match tr with
  | [] => true
  | e :: tr' =>
      (if cache_file_access e then info else true)
      && guarded_access k objPath infoPath
           (is_granted_lock k ObjFile objPath e || obj)
           ((obj && is_granted_lock k InfoFile infoPath e) || info)
           tr'
  end.

(** The same on positions of the trace: an event at position [i] that uses
    a cache file comes after a granted lock of kind [k] on the info file at
    [infoPath], which itself comes after a granted lock of kind [k] on the
    object file at [objPath]. *)
Definition access_under_locks
    (k : LockKind) (objPath infoPath : string) (tr : list Event) : Prop :=
  forall (i : nat) (e : Event),
    tr !! i = Some e ->
    cache_file_access e = true ->
    exists j1 j2 : nat,
      (j1 < j2)%nat /\ (j2 < i)%nat
      /\ tr !! j1 = Some (FileMutex_lock k ObjFile objPath true)
      /\ tr !! j2 = Some (FileMutex_lock k InfoFile infoPath true).


(** The flag [writeCache] hands to the writer: the answer of the symbol
    callback to ["__isThreadable"], cast to [uint32_t], or 0 without a
    callback. *)
Definition libRS_threadable (s : RSScript.t) : Z :=
  match RSScript.mpExtSymbolLookupFn s with
  | Some fn =>
      fn (RSScript.mpExtSymbolLookupFnContext s) "__isThreadable" `mod` 2 ^ 32
  | None => 0
  end.

(** Whether the write path gets as far as the writer: both write locks
    constructed without error and granted, both files opened for writing. *)
Definition reaches_writer (env : Env) (s : RSScript.t) : bool :=
  let objPath := RSScript.getCachedObjectPath env s in
  let infoPath := RSScript.getCacheInfoPath env s in
  negb (FileMutex_hasError env kWriteLock objPath)
  && FileMutex_granted env kWriteLock objPath
  && negb (FileMutex_hasError env kWriteLock infoPath)
  && FileMutex_granted env kWriteLock infoPath
  && negb (OutputFile_hasError env objPath)
  && negb (OutputFile_hasError env infoPath).

(** A device whose cache directory can be read but not write-locked: read
    locks are granted, write locks are refused. *)
Definition Sample_env_write_locked : Env :=
  Sample.env "0" (fun k => bool_decide (k = kReadLock)) true true 0
             (Sample.layout [] 8).

(** The same device with a writable cache directory and a writer that
    fails. *)
Definition Sample_env_writer_fails : Env :=
  Sample.env "0" (fun _ => true) true false 0 (Sample.layout [] 8).

(** A fresh unit after a read of an empty cache directory has missed. *)
Definition Sample_machine_after_miss : RSScript.Machine :=
  RSScript.mkMachine
    (with_cache_names "/cache" "unit" RSScript.new) ∅
    [FileMutex_new kReadLock ObjFile "/cache/unit.o";
     FileMutex_new kReadLock InfoFile "/cache/unit.o.info";
     FileMutex_lock kReadLock ObjFile "/cache/unit.o" true;
     FileMutex_lock kReadLock InfoFile "/cache/unit.o.info" true;
     InputFile_new ObjFile "/cache/unit.o";
     InputFile_new InfoFile "/cache/unit.o.info";
     ALOGE "Unable to open %s for reading! (%s)"].

(** Two runs of [addDependency] calls that insert the same two pairs in
    opposite orders; both pairs carry the same name. The cache was recorded
    with the first pair. *)
Definition Sample_ledger_a : list (string * SHA1) :=
  [("foo.bc", Sample.digest 1); ("foo.bc", Sample.digest 2)].

Definition Sample_ledger_b : list (string * SHA1) :=
  [("foo.bc", Sample.digest 2); ("foo.bc", Sample.digest 1)].

Definition Sample_layout_foo : CacheFormat :=
  Sample.layout [("foo.bc", Sample.digest 1)] 8.

(** Whether the read path gets as far as opening the files: both read
    locks constructed without error and granted. *)
Definition read_locks_granted (env : Env) (s : RSScript.t) : bool :=
  let objPath := RSScript.getCachedObjectPath env s in
  let infoPath := RSScript.getCacheInfoPath env s in
  negb (FileMutex_hasError env kReadLock objPath)
  && FileMutex_granted env kReadLock objPath
  && negb (FileMutex_hasError env kReadLock infoPath)
  && FileMutex_granted env kReadLock infoPath.

(** Stages 1 to 5 of the validation: the checks on the layout alone. *)
Definition layout_ok (fmt : CacheFormat) (info : list Z) : bool :=
  checkFileSize fmt info
  && checkHeader fmt info
  && checkMachineIntType fmt info
  && checkSectionOffsetAndSize fmt info
  && checkStringPool fmt info.

(** A device whose cache holds a unit recorded with the library digests
    and object slots 3 and 7, read by a host that can reuse the slots
    below [slots]. *)
Definition Sample_env_slots (libbcc : Z) (slots : Z) : Env :=
  Sample.env "0" (fun _ => true) true true 0
    (Sample.layout
       [("/system/lib/libbcc.so.sha1", Sample.digest libbcc);
        ("/system/lib/libRS.so", Sample.digest 2)]
       slots).

Definition Sample_machine_with_cache : RSScript.Machine :=
  RSScript.mkMachine RSScript.new
    {[ "/cache/unit.o" := [127; 69; 76; 70];
       "/cache/unit.o.info" := [1; 2; 3] ]}
    [].

(** A unit whose state has its artifact: Compiled with [mCompiled] set,
    Cached with [mCached] set. *)
Definition artifact_present (s : RSScript.t) : Prop :=
  match RSScript.mStatus s with
  | ScriptStatus.Compiled => is_Some (RSScript.mCompiled s)
  | ScriptStatus.Cached => is_Some (RSScript.mCached s)
  | ScriptStatus.Unknown => True
  end.

(** A caller's use of the unit: the guarded entry points. *)
Inductive Call :=
  | Call_prepareExecutable (cacheDir cacheName : option string) (flags : Z)
  | Call_doReset
  | Call_registerSymbolCallback (pFn : option BCCSymbolLookupFn) (pContext : Z)
  | Call_addSourceDependency (pSourceName : string) (pSHA1 : SHA1).

(** One call, made while the collaborators behave as [env]; the value the
    call returns is dropped. *)
Definition do_call (env : Env) (c : Call) : RSScript.M unit :=
  match c with
  | Call_prepareExecutable cacheDir cacheName flags =>
      RSScript.prepareExecutable env cacheDir cacheName flags ≫= fun _ => mret tt
  | Call_doReset =>
      RSScript.modify_self (fun s => (RSScript.doReset s).2)
  | Call_registerSymbolCallback pFn pContext =>
      RSScript.registerSymbolCallback pFn pContext ≫= fun _ => mret tt
  | Call_addSourceDependency pSourceName pSHA1 =>
      RSScript.modify_self
        (fun s => (RSScript.addSourceDependency env pSourceName pSHA1 s).2)
  end.

(** A history of calls, first call first, each with the collaborators of
    its moment. *)
Fixpoint do_calls (cs : list (Env * Call)) : RSScript.M unit :=
  match cs with
  | [] => mret tt
  | (env, c) :: cs' => do_call env c ≫= fun _ => do_calls cs'
  end.

(** What a caller can rely on between calls: the artifact of the state is
    present, and the object type is Executable only on a unit that is
    Cached or Compiled (the guarded entry points produce no other type). *)
Definition lifecycle_invariant (s : RSScript.t) : Prop :=
  artifact_present s
  /\ (RSScript.mObjectType s = ScriptObject.Unknown
      \/ (RSScript.mObjectType s = ScriptObject.Executable
          /\ RSScript.mStatus s ≠ ScriptStatus.Unknown)).

(** A device out of memory when the compiled artifact is allocated. *)
Definition Sample_env_out_of_memory : Env :=
  {| props := ∅;
     TARGET_BUILD := true;
     pathLibBCC_SHA1 := "/system/lib/libbcc.so.sha1";
     sha1LibBCC_SHA1 := Sample.digest 1;
     pathLibRS := "/system/lib/libRS.so";
     sha1LibRS := Sample.digest 2;
     cachedObjectPath := fun dir name => dir ++ name ++ ".o";
     cacheInfoPath := fun dir name => dir ++ name ++ ".o.info";
     FileMutex_hasError := fun _ _ => false;
     FileMutex_granted := fun _ _ => true;
     InputFile_fails := fun _ => false;
     OutputFile_hasError := fun _ => false;
     unlink_rc := fun _ => 0;
     new_SourceDependency_ok := true;
     new_ScriptCompiled := None;
     readModule_rc := 0;
     compile_rc := 0;
     writeCacheFile := fun _ _ _ => (true, [], []);
     format := Sample.layout [] 8 |}.

(** A device whose compiler rejects the module with code [rc]. *)
Definition Sample_env_compile_fails (rc : Z) : Env :=
  {| props := ∅;
     TARGET_BUILD := true;
     pathLibBCC_SHA1 := "/system/lib/libbcc.so.sha1";
     sha1LibBCC_SHA1 := Sample.digest 1;
     pathLibRS := "/system/lib/libRS.so";
     sha1LibRS := Sample.digest 2;
     cachedObjectPath := fun dir name => dir ++ name ++ ".o";
     cacheInfoPath := fun dir name => dir ++ name ++ ".o.info";
     FileMutex_hasError := fun _ _ => false;
     FileMutex_granted := fun _ _ => true;
     InputFile_fails := fun _ => false;
     OutputFile_hasError := fun _ => false;
     unlink_rc := fun _ => 0;
     new_SourceDependency_ok := true;
     new_ScriptCompiled := Some Sample.compiled;
     readModule_rc := 0;
     compile_rc := rc;
     writeCacheFile := fun _ _ _ => (true, [], []);
     format := Sample.layout [] 8 |}.

(** Whether both write locks are constructed without error and granted. *)
Definition write_locks_granted (env : Env) (s : RSScript.t) : bool :=
  let objPath := RSScript.getCachedObjectPath env s in
  let infoPath := RSScript.getCacheInfoPath env s in
  negb (FileMutex_hasError env kWriteLock objPath)
  && FileMutex_granted env kWriteLock objPath
  && negb (FileMutex_hasError env kWriteLock infoPath)
  && FileMutex_granted env kWriteLock infoPath.

(** Events that open or write a cache file. *)
Definition touches_cache_file (e : Event) : bool :=
  match e with
  | OutputFile_new _ _ | Writer_writeCacheFile _
  | File_truncate _ _ | Sys_unlink _ _ => true
  | _ => false
  end.

(** An object file on a 32-bit device on which [write] reports [w]. *)
Definition Sample_output (w : Z) : RSScript.ObjectOutput :=
  {| RSScript.size_t_bits := 32;
     RSScript.OutputFile_write := fun _ _ _ => w;
     RSScript.OutputFile_contents := fun _ _ _ => replicate (Z.to_nat w) 0 |}.

(** Artifacts whose every list is the one stored in them: a lookup
    answers the address it was built with, a list call copies as many
    entries as the caller asked for. *)
Definition Sample_views : RSScript.ArtifactViews :=
  {| RSScript.compiled_lookup := fun c _ => ScriptCompiled.getELF c;
     RSScript.cached_lookup := fun c _ => ScriptCached.getELF c;
     RSScript.compiled_getExportVarList := fun _ n _ => replicate (Z.to_nat n) 1;
     RSScript.cached_getExportVarList := fun _ n _ => replicate (Z.to_nat n) 2;
     RSScript.compiled_getExportFuncList := fun _ n _ => replicate (Z.to_nat n) 1;
     RSScript.cached_getExportFuncList := fun _ n _ => replicate (Z.to_nat n) 2;
     RSScript.compiled_getExportForEachList :=
       fun _ n _ => replicate (Z.to_nat n) 1;
     RSScript.cached_getExportForEachList :=
       fun _ n _ => replicate (Z.to_nat n) 2;
     RSScript.compiled_getPragmaList := fun _ _ b => b;
     RSScript.cached_getPragmaList := fun _ _ b => b;
     RSScript.compiled_getFuncInfoList := fun _ _ b => b;
     RSScript.cached_getFuncInfoList := fun _ _ b => b;
     RSScript.compiled_getObjectSlotList := fun _ n _ => replicate (Z.to_nat n) 1;
     RSScript.cached_getObjectSlotList := fun _ n _ => replicate (Z.to_nat n) 2;
     RSScript.compiled_getExportVarNameList := fun _ _ => ["x"; "y"];
     RSScript.compiled_getExportFuncNameList := fun _ _ => ["f"];
     RSScript.compiled_getExportForEachNameList := fun _ _ => ["root"] |}.

(** The machine after a call that only sets the invalid-operation code. *)
Definition rejected (m : RSScript.Machine) : RSScript.Machine :=
  RSScript.mkMachine
    (RSScript.set_mErrorCode BCC_INVALID_OPERATION (RSScript.self m))
    (RSScript.files m) (RSScript.log m).

(** * Properties *)

Module RSScriptFacts.
Import RSScript.

(** Unfolds the monad so that a run of straight-line code computes. *)
Ltac run :=
  unfold call, deref, emit, modify_self, modify_files, get_self, get_files;
  unfold mbind, M_bind, mret, M_ret; cbn.

(** C3: calling [prepareExecutable] on a unit that is not in the Unknown
    state fails. The call returns the nonzero status 1, the error code
    becomes the invalid-operation value (which differs from the no-error and
    out-of-memory values), and nothing else happens: the state, the object
    type, both artifacts, the cache names, the dependencies and the file
    system are as before, and the only event is the error log line, so no
    lock is taken, no file is opened, no reader runs and no compile runs. *)
Theorem prepareExecutable_invalid_operation
    (env : Env) (cacheDir cacheName : option string) (flags : Z) (m : Machine) :
  mStatus (self m) ≠ ScriptStatus.Unknown ->
  prepareExecutable env cacheDir cacheName flags m
  = Some (1, mkMachine (set_mErrorCode BCC_INVALID_OPERATION (self m))
                       (files m)
                       (log m ++ [ALOGE "Invalid operation: %s\n"]))
  /\ 1 ≠ 0
  /\ BCC_INVALID_OPERATION ≠ BCC_NO_ERROR
  /\ BCC_INVALID_OPERATION ≠ BCC_OUT_OF_MEMORY
  /\ mStatus (set_mErrorCode BCC_INVALID_OPERATION (self m)) = mStatus (self m)
  /\ mObjectType (set_mErrorCode BCC_INVALID_OPERATION (self m))
     = mObjectType (self m).
Proof.
  intros Hs. repeat split; try discriminate.
  unfold prepareExecutable. run.
  rewrite bool_decide_true by exact Hs. reflexivity.
Qed.

Lemma prepareExecutable_invalid_operation_witness :
  prepareExecutable
    (Sample.env "0" (fun _ => true) true true 0 (Sample.layout [] 8))
    (Some "/cache") (Some "unit") 0 (Sample.machine Sample.compiled_unit)
  = Some (1, mkMachine
               (set_mErrorCode BCC_INVALID_OPERATION Sample.compiled_unit)
               ∅ [ALOGE "Invalid operation: %s\n"]).
Proof.
  refine (proj1 (prepareExecutable_invalid_operation _ _ _ _
                   (Sample.machine Sample.compiled_unit) _)).
  discriminate.
Defined.

(** C4: resetting a unit, from whatever state it was in, returns it to the
    Unknown state and wipes it: the error code is the no-error value, the
    object type is Unknown, the sticky context-slot flag is down and no
    source-dependency record is left. [doReset] does exactly this and
    reports success. *)
Theorem resetState_full_wipe (s : t) :
  mStatus (resetState s) = ScriptStatus.Unknown
  /\ mErrorCode (resetState s) = BCC_NO_ERROR
  /\ mObjectType (resetState s) = ScriptObject.Unknown
  /\ mIsContextSlotNotAvail (resetState s) = false
  /\ mSourceDependencies (resetState s) = []
  /\ doReset s = (true, resetState s).
Proof. repeat split. Qed.

(** C9: in the Unknown state every export accessor answers the empty value
    of its type (the six counts and the native-code size are 0, the
    native-code pointer is null); in the Compiled state each answers what
    the compiled artifact answers, and in the Cached state what the cached
    artifact answers. *)
Theorem accessors_follow_state (s : t) :
  (mStatus s = ScriptStatus.Unknown ->
     getExportVarCount s = Some 0
     /\ getExportFuncCount s = Some 0
     /\ getExportForEachCount s = Some 0
     /\ getPragmaCount s = Some 0
     /\ getFuncCount s = Some 0
     /\ getObjectSlotCount s = Some 0
     /\ getELFSize s = Some 0
     /\ getELF s = Some 0)
  /\ (forall c, mStatus s = ScriptStatus.Compiled -> mCompiled s = Some c ->
        getExportVarCount s = Some (ScriptCompiled.getExportVarCount c)
        /\ getExportFuncCount s = Some (ScriptCompiled.getExportFuncCount c)
        /\ getExportForEachCount s
           = Some (ScriptCompiled.getExportForEachCount c)
        /\ getPragmaCount s = Some (ScriptCompiled.getPragmaCount c)
        /\ getFuncCount s = Some (ScriptCompiled.getFuncCount c)
        /\ getObjectSlotCount s = Some (ScriptCompiled.getObjectSlotCount c)
        /\ getELFSize s = Some (ScriptCompiled.getELFSize c)
        /\ getELF s = Some (ScriptCompiled.getELF c))
  /\ (forall c, mStatus s = ScriptStatus.Cached -> mCached s = Some c ->
        getExportVarCount s = Some (ScriptCached.getExportVarCount c)
        /\ getExportFuncCount s = Some (ScriptCached.getExportFuncCount c)
        /\ getExportForEachCount s
           = Some (ScriptCached.getExportForEachCount c)
        /\ getPragmaCount s = Some (ScriptCached.getPragmaCount c)
        /\ getFuncCount s = Some (ScriptCached.getFuncCount c)
        /\ getObjectSlotCount s = Some (ScriptCached.getObjectSlotCount c)
        /\ getELFSize s = Some (ScriptCached.getELFSize c)
        /\ getELF s = Some (ScriptCached.getELF c)).
Proof.
  unfold getExportVarCount, getExportFuncCount, getExportForEachCount,
    getPragmaCount, getFuncCount, getObjectSlotCount, getELFSize, getELF,
    dispatch.
  split; [|split].
  - intros ->. repeat split.
  - intros c -> ->. repeat split.
  - intros c -> ->. repeat split.
Qed.

Lemma accessors_follow_state_witness :
  (getExportVarCount new = Some 0 /\ getELF new = Some 0)
  /\ (getExportVarCount Sample.compiled_unit = Some 2
      /\ getELFSize Sample.compiled_unit = Some 128
      /\ getELF Sample.compiled_unit = Some 4096)
  /\ (getFuncCount Sample.cached_unit = Some 3
      /\ getELF Sample.cached_unit = Some 8192).
Proof.
  split; [|split].
  - destruct (proj1 (accessors_follow_state new) eq_refl)
      as (H1 & _ & _ & _ & _ & _ & _ & H8).
    exact (conj H1 H8).
  - destruct (proj1 (proj2 (accessors_follow_state Sample.compiled_unit))
                Sample.compiled eq_refl eq_refl)
      as (H1 & _ & _ & _ & _ & _ & H7 & H8).
    exact (conj H1 (conj H7 H8)).
  - destruct (proj2 (proj2 (accessors_follow_state Sample.cached_unit))
                Sample.cached eq_refl eq_refl)
      as (_ & _ & _ & _ & H5 & _ & _ & H8).
    exact (conj H5 H8).
Defined.

(** C10: [registerSymbolCallback] stores the supplied function and context
    in every state. When the unit is not in the Unknown state the call also
    sets the invalid-operation error code and returns 1, and the two members
    have been overwritten all the same; in the Unknown state it returns 0
    and leaves the error code alone. No other member changes. *)
Theorem registerSymbolCallback_always_overwrites
    (pFn : option BCCSymbolLookupFn) (pContext : Z) (m : Machine) :
  exists rc m',
    registerSymbolCallback pFn pContext m = Some (rc, m')
    /\ mpExtSymbolLookupFn (self m') = pFn
    /\ mpExtSymbolLookupFnContext (self m') = pContext
    /\ (mStatus (self m) ≠ ScriptStatus.Unknown ->
          rc = 1 /\ mErrorCode (self m') = BCC_INVALID_OPERATION)
    /\ (mStatus (self m) = ScriptStatus.Unknown ->
          rc = 0 /\ mErrorCode (self m') = mErrorCode (self m))
    /\ mStatus (self m') = mStatus (self m)
    /\ mObjectType (self m') = mObjectType (self m)
    /\ mCompiled (self m') = mCompiled (self m)
    /\ mCached (self m') = mCached (self m)
    /\ files m' = files m.
Proof.
  unfold registerSymbolCallback. run.
  destruct (decide (mStatus (self m) = ScriptStatus.Unknown)) as [E|E].
  - rewrite bool_decide_false by (intros H; exact (H E)).
    do 2 eexists. split; [reflexivity|]. cbn. repeat split; tauto.
  - rewrite bool_decide_true by exact E.
    do 2 eexists. split; [reflexivity|]. cbn. repeat split; tauto.
Qed.

Lemma registerSymbolCallback_always_overwrites_witness :
  exists rc m',
    registerSymbolCallback (Some (fun _ _ => 7)) 9
      (Sample.machine Sample.compiled_unit) = Some (rc, m')
    /\ mpExtSymbolLookupFn (self m') = Some (fun _ _ => 7)
    /\ mpExtSymbolLookupFnContext (self m') = 9
    /\ rc = 1
    /\ mErrorCode (self m') = BCC_INVALID_OPERATION.
Proof.
  destruct (registerSymbolCallback_always_overwrites
              (Some (fun _ _ => 7)) 9 (Sample.machine Sample.compiled_unit))
    as (rc & m' & Hrun & Hfn & Hctx & Hbad & _).
  exists rc, m'. destruct Hbad as [Hrc Herr]; [discriminate|].
  repeat split; assumption.
Defined.

(** *** Skipping the cache path *)

Lemma append_nonempty (a b : string) : a ≠ "" -> a ++ b ≠ "".
Proof. destruct a; [congruence|discriminate]. Qed.


(** Rewrites with the facts known about the current state and evaluates
    the tests they settle. *)
Ltac settle :=
  repeat match goal with
  | H : _ = _ |- _ => progress (rewrite H)
  | |- context [bool_decide (?a ≠ ?a)] =>
      rewrite (bool_decide_false (a ≠ a)) by (intros Hne; exact (Hne eq_refl))
  | |- context [bool_decide (?a ≠ ?b)] =>
      rewrite (bool_decide_true (a ≠ b)) by discriminate
  | _ => progress cbn
  end.

(** Splits on the conditions of the code, one at a time. *)
Ltac innermost x :=
  lazymatch x with
  | context [match _ with _ => _ end] => fail
  | context [bool_decide _] => fail
  | _ => idtac
  end.

Ltac branch :=
  match goal with
  | |- context [bool_decide ?P] => destruct (bool_decide_reflect P)
  | |- context [if negb ?b then _ else _] => innermost b; destruct b eqn:?
  | |- context [if ?b then _ else _] => innermost b; destruct b eqn:?
  | |- context [match ?x with _ => _ end] => innermost x; destruct x eqn:?
  end; cbn in *.

Lemma sanitize_empty_iff (dir : string) : sanitize dir = "" <-> dir = "".
Proof.
  unfold sanitize. repeat case_bool_decide; cbn; try tauto.
  split; [intros Hx; exfalso; revert Hx; by apply append_nonempty|congruence].
Qed.

Lemma store_cache_names_run (dir name : string) (m : Machine) :
  store_cache_names dir name m
  = Some (tt, mkMachine (with_cache_names dir name (self m)) (files m) (log m)).
Proof.
  unfold store_cache_names, with_cache_names, sanitize. run.
  destruct (negb (bool_decide (dir = ""))
            && negb (bool_decide (last_char dir = Some "/"%char)));
    reflexivity.
Qed.



(** [writeCache] gives up at once on a unit that is not Compiled. *)
Lemma writeCache_not_compiled (env : Env) (m : Machine) :
  mStatus (self m) ≠ ScriptStatus.Compiled ->
  writeCache env m = Some (1, m).
Proof.
  intros Hs. unfold writeCache. run.
  rewrite bool_decide_true by exact Hs. reflexivity.
Qed.

(** A skipped write path: status 0 and the machine as it was. *)
Lemma writeCache_skip
    (env : Env) (m : Machine) (c : ScriptCompiled.t) (msg : string) :
  mStatus (self m) = ScriptStatus.Compiled ->
  mCompiled (self m) = Some c ->
  ScriptCompiled.getCompilerErrorMessage c = Some msg ->
  isCacheable env (self m) = false ->
  writeCache env m = Some (0, m).
Proof.
  intros Hs Hc Hmsg Hno. unfold writeCache, getCompilerErrorMessage. run.
  settle. reflexivity.
Qed.


(** *** Lock order *)

Lemma ordered_locks_held (k : LockKind) (held : bool) (tr : list Event) :
  ordered_locks k held tr = true ->
  forall (i : nat) k' f p g,
    tr !! i = Some (FileMutex_lock k' f p g) ->
    k' = k
    /\ (f = InfoFile ->
        held = true
        \/ exists (j : nat) p',
             (j < i)%nat /\ tr !! j = Some (FileMutex_lock k ObjFile p' true)).
Proof.
  revert held. induction tr as [|e tr IH]; intros held Hok i k' f p g Hi.
  - destruct i; discriminate.
  - destruct i as [|i].
    + cbn in Hi. injection Hi as ->. cbn in Hok.
      destruct f; cbn in Hok.
      * apply andb_prop in Hok as [Hk _]. apply bool_decide_eq_true in Hk.
        split; [exact Hk|discriminate].
      * apply andb_prop in Hok as [Hk _]. apply andb_prop in Hk as [Hk Hh].
        apply bool_decide_eq_true in Hk. split; [exact Hk|]. by left.
    + cbn in Hi.
      assert (exists held', ordered_locks k held' tr = true
                /\ (held' = true -> held = true
                    \/ exists p', e = FileMutex_lock k ObjFile p' true))
        as (held' & Hok' & Hheld').
      { destruct e; cbn in Hok; try (exists held; split; [exact Hok|by left]).
        destruct f0; cbn in Hok.
        - apply andb_prop in Hok as [Hk Hok].
          apply bool_decide_eq_true in Hk. subst k0.
          exists (held || granted). split; [exact Hok|].
          destruct held; [by left|]. cbn. intros ->. right. by eexists.
        - apply andb_prop in Hok as [_ Hok].
          exists held. split; [exact Hok|by left]. }
      destruct (IH held' Hok' i k' f p g Hi) as [Hk Hinfo].
      split; [exact Hk|]. intros Hf.
      destruct (Hinfo Hf) as [Hh|(j & p' & Hlt & Hj)].
      * destruct (Hheld' Hh) as [?|[p' ->]]; [by left|].
        right. exists 0%nat, p'. split; [lia|reflexivity].
      * right. exists (S j), p'. split; [lia|exact Hj].
Qed.

(** The scan decides the discipline. *)
Lemma ordered_locks_sound (k : LockKind) (tr : list Event) :
  ordered_locks k false tr = true -> lock_order k tr.
Proof.
  intros Hok i k' f p g Hi.
  destruct (ordered_locks_held k false tr Hok i k' f p g Hi) as [Hk Hinfo].
  split; [exact Hk|]. intros Hf.
  destruct (Hinfo Hf) as [?|?]; [discriminate|assumption].
Qed.

Lemma is_granted_lock_spec
    (k : LockKind) (f : CacheFile) (path : string) (e : Event) :
  is_granted_lock k f path e = true -> e = FileMutex_lock k f path true.
Proof.
  destruct e; cbn; try discriminate. intros Hok.
  apply andb_prop in Hok as [Hok Hp]. apply andb_prop in Hok as [Hok Hg].
  apply andb_prop in Hok as [Hk Hf].
  apply bool_decide_eq_true in Hk, Hf. apply String.eqb_eq in Hp.
  congruence.
Qed.

Lemma guarded_access_held
    (k : LockKind) (objPath infoPath : string) (obj info : bool)
    (tr : list Event) :
  guarded_access k objPath infoPath obj info tr = true ->
  forall (i : nat) (e : Event),
    tr !! i = Some e ->
    cache_file_access e = true ->
    info = true
    \/ (obj = true
        /\ exists j2 : nat,
             (j2 < i)%nat
             /\ tr !! j2 = Some (FileMutex_lock k InfoFile infoPath true))
    \/ (exists j1 j2 : nat,
          (j1 < j2)%nat /\ (j2 < i)%nat
          /\ tr !! j1 = Some (FileMutex_lock k ObjFile objPath true)
          /\ tr !! j2 = Some (FileMutex_lock k InfoFile infoPath true)).
Proof.
  revert obj info. induction tr as [|e0 tr IH]; intros obj info Hok i e Hi He.
  - destruct i; discriminate.
  - cbn in Hok. apply andb_prop in Hok as [Hnow Hrest].
    destruct i as [|i].
    + cbn in Hi. injection Hi as ->. rewrite He in Hnow. by left.
    + cbn in Hi.
      destruct (IH _ _ Hrest i e Hi He)
        as [Hinfo|[[Hobj (j2 & Hlt & Hj2)]|(j1 & j2 & Hlt1 & Hlt2 & Hj1 & Hj2)]].
      * apply orb_prop in Hinfo as [Hinfo|Hinfo]; [|by left].
        apply andb_prop in Hinfo as [Hobj Hlock].
        apply is_granted_lock_spec in Hlock. subst e0.
        right. left. split; [exact Hobj|].
        exists 0%nat. split; [lia|reflexivity].
      * apply orb_prop in Hobj as [Hlock|Hobj].
        -- apply is_granted_lock_spec in Hlock. subst e0.
           right. right. exists 0%nat, (S j2).
           split; [lia|]. split; [lia|]. split; [reflexivity|exact Hj2].
        -- right. left. split; [exact Hobj|].
           exists (S j2). split; [lia|exact Hj2].
      * right. right. exists (S j1), (S j2).
        split; [lia|]. split; [lia|]. split; assumption.
Qed.

(** The scan decides that every use of a cache file is under both locks. *)
Lemma guarded_access_sound
    (k : LockKind) (objPath infoPath : string) (tr : list Event) :
  guarded_access k objPath infoPath false false tr = true ->
  access_under_locks k objPath infoPath tr.
Proof.
  intros Hok i e Hi He.
  destruct (guarded_access_held k objPath infoPath false false tr Hok i e Hi He)
    as [?|[[? _]|?]]; [discriminate|discriminate|assumption].
Qed.

(** A trace that opens a cache file without the locks does not pass. *)
Example access_without_locks_rejected :
  ~ access_under_locks kReadLock "/cache/unit.o" "/cache/unit.o.info"
      [InputFile_new ObjFile "/cache/unit.o"].
Proof.
  intros Hok.
  destruct (Hok 0%nat _ eq_refl eq_refl) as (j1 & j2 & _ & Hlt & _). lia.
Qed.

(** Closes a branch of a run: the result, the events it added, the lock
    discipline on those events, and the locks that guard each use of a
    cache file. *)
Ltac close_branch :=
  do 3 eexists; (split; [reflexivity|]); cbn;
  (split; [first [rewrite <- ?app_assoc; cbn; reflexivity
                 | symmetry; apply app_nil_r]|]);
  split;
  [ apply ordered_locks_sound; reflexivity
  | apply guarded_access_sound; cbn; rewrite ?String.eqb_refl; reflexivity ].

(** C7: on every cache access the object file is locked before the info
    file, and the files are used only under both locks. For the events
    [tr] that a run of the read path ([internalLoadCache]) adds, every lock
    attempt is a read lock, and an attempt on the info file's lock comes
    after a granted read lock on the object file; every event that uses a
    cache file (opening it, the reader's check or read) comes after a
    granted read lock on the info file's path, itself after a granted read
    lock on the object file's path. For the events a run of the write path
    ([writeCache]) adds, the same holds with write locks, the uses being
    opening the files, the writer's call, and erasing, closing and
    unlinking them. So neither path attempts the info file's lock before
    the object file's lock has been granted, and neither touches a cache
    file without having taken the two locks in this order. Both runs
    always return (the write path on any unit whose compiled artifact is
    present when its state is Compiled). *)
Theorem lock_object_before_info (env : Env) :
  (forall cacheDir cacheName checkOnly m,
     exists rc m' tr,
       internalLoadCache env cacheDir cacheName checkOnly m = Some (rc, m')
       /\ log m' = (log m ++ tr)%list
       /\ lock_order kReadLock tr
       /\ access_under_locks kReadLock
            (getCachedObjectPath env (self m'))
            (getCacheInfoPath env (self m')) tr)
  /\ (forall m,
        (mStatus (self m) = ScriptStatus.Compiled ->
         is_Some (mCompiled (self m))) ->
        exists rc m' tr,
          writeCache env m = Some (rc, m')
          /\ log m' = (log m ++ tr)%list
          /\ lock_order kWriteLock tr
          /\ access_under_locks kWriteLock
               (getCachedObjectPath env (self m))
               (getCacheInfoPath env (self m)) tr).
Proof.
  split.
  - intros [dir|] [name|] checkOnly m;
      try (unfold internalLoadCache; run; close_branch).
    unfold internalLoadCache, acquire. run.
    rewrite store_cache_names_run. cbn.
    repeat branch; close_branch.
  - intros m Hwf.
    destruct (decide (mStatus (self m) = ScriptStatus.Compiled)) as [Hs|Hs].
    + destruct (Hwf Hs) as [c Hc].
      unfold writeCache, getCompilerErrorMessage, acquire, discard_cache_files.
      run. settle.
      repeat branch; try congruence; close_branch.
    + rewrite (writeCache_not_compiled env m Hs). close_branch.
Qed.

Lemma lock_object_before_info_witness :
  exists rc m' tr,
    writeCache (Sample.env "0" (fun _ => true) true true 0 (Sample.layout [] 8))
               (Sample.machine Sample.compiled_unit) = Some (rc, m')
    /\ log m' = tr
    /\ lock_order kWriteLock tr
    /\ access_under_locks kWriteLock "/cache/unit.o" "/cache/unit.o.info" tr.
Proof.
  refine (proj2 (lock_object_before_info _)
            (Sample.machine Sample.compiled_unit) _).
  intros _. eexists. reflexivity.
Defined.

(** *** Discarding a cache that could not be written *)





(** *** The compile path and the write that follows it *)

Lemma internalCompile_ok (env : Env) (m : Machine) (c : ScriptCompiled.t) :
  new_ScriptCompiled env = Some c ->
  readModule_rc env = 0 ->
  compile_rc env = 0 ->
  internalCompile env m
  = Some (0, mkMachine
               (set_mStatus ScriptStatus.Compiled
                  (set_mCompiled (Some c) (self m)))
               (files m)
               (log m ++ [ScriptCompiled_new true;
                          ScriptCompiled_readModule 0;
                          ScriptCompiled_compile 0])).
Proof.
  intros Hnew Hread Hcomp. unfold internalCompile. run.
  settle. rewrite <- ?app_assoc. reflexivity.
Qed.

Lemma finish_executable_compiled
    (status : Z) (m : Machine) (c : ScriptCompiled.t) :
  mStatus (self m) = ScriptStatus.Compiled ->
  mCompiled (self m) = Some c ->
  finish_executable status m
  = Some (status,
          mkMachine (set_mObjectType ScriptObject.Executable (self m))
                    (files m)
                    (log m ++ [RegisterObjectWithGDB
                                 (ScriptCompiled.getELF c)
                                 (ScriptCompiled.getELFSize c)])).
Proof.
  intros Hs Hc. unfold finish_executable, getELF, getELFSize, dispatch. run.
  settle. reflexivity.
Qed.

(** With the locks granted and the files open, [writeCache] returns 0
    whatever the writer answers. *)
Lemma writeCache_reaches_writer
    (env : Env) (m : Machine) (c : ScriptCompiled.t) (msg : string) :
  mStatus (self m) = ScriptStatus.Compiled ->
  mCompiled (self m) = Some c ->
  ScriptCompiled.getCompilerErrorMessage c = Some msg ->
  isCacheable env (self m) = true ->
  reaches_writer env (self m) = true ->
  exists m' ok,
    writeCache env m = Some (0, m')
    /\ self m' = self m
    /\ ok = (writeCacheFile env (writer_ledger env (self m)) c
               (libRS_threadable (self m))).1.1
    /\ Writer_writeCacheFile ok ∈ log m'.
Proof.
  intros Hs Hc Hmsg Hyes Hreach. unfold reaches_writer in Hreach.
  repeat (apply andb_prop in Hreach as [Hreach ?]).
  repeat match goal with
         | H : negb _ = true |- _ => apply negb_true_iff in H
         end.
  unfold writeCache, getCompilerErrorMessage, acquire, discard_cache_files,
    libRS_threadable.
  run. settle.
  destruct (mpExtSymbolLookupFn (self m)) as [fn|]; cbn; settle.
  all: match goal with
       | |- context [writeCacheFile ?e ?l ?a ?b] =>
           destruct (writeCacheFile e l a b) as [[ok ob] ib]
       end; cbn.
  all: destruct ok; cbn; repeat case_bool_decide; cbn.
  all: do 2 eexists; (split; [reflexivity|]); cbn; (split; [reflexivity|]);
    (split; [reflexivity|]); set_solver.
Qed.

(** With a write lock refused or a file that cannot be opened for writing,
    [writeCache] returns 1, having logged why; the writer is not called. *)
Lemma writeCache_blocked
    (env : Env) (m : Machine) (c : ScriptCompiled.t) (msg : string) :
  mStatus (self m) = ScriptStatus.Compiled ->
  mCompiled (self m) = Some c ->
  ScriptCompiled.getCompilerErrorMessage c = Some msg ->
  isCacheable env (self m) = true ->
  reaches_writer env (self m) = false ->
  exists m',
    writeCache env m = Some (1, m')
    /\ self m' = self m.
Proof.
  intros Hs Hc Hmsg Hyes Hreach. unfold reaches_writer in Hreach.
  unfold writeCache, getCompilerErrorMessage, acquire. run. settle.
  destruct (FileMutex_hasError env kWriteLock
              (getCachedObjectPath env (self m))); cbn;
    [eexists; split; reflexivity|].
  destruct (FileMutex_granted env kWriteLock
              (getCachedObjectPath env (self m))); cbn;
    [|eexists; split; reflexivity].
  destruct (FileMutex_hasError env kWriteLock
              (getCacheInfoPath env (self m))); cbn;
    [eexists; split; reflexivity|].
  destruct (FileMutex_granted env kWriteLock
              (getCacheInfoPath env (self m))); cbn;
    [|eexists; split; reflexivity].
  destruct (OutputFile_hasError env (getCachedObjectPath env (self m))); cbn;
    [destruct (OutputFile_hasError env (getCacheInfoPath env (self m)));
     eexists; split; reflexivity|].
  destruct (OutputFile_hasError env (getCacheInfoPath env (self m))); cbn;
    [eexists; split; reflexivity|].
  discriminate.
Qed.

(** C1, as stated, fails: on a fresh unit whose compile succeeds and whose
    cache directory refuses the write lock, the cache-write step fails and
    [prepareExecutable] returns 1, not 0. The unit is Compiled, but its
    object type has not become Executable and no GDB registration
    happened. *)
Lemma prepareExecutable_write_lock_refused :
  mStatus new = ScriptStatus.Unknown
  /\ exists m',
       prepareExecutable Sample_env_write_locked
         (Some "/cache") (Some "unit") 0 (Sample.machine new) = Some (1, m')
       /\ mStatus (self m') = ScriptStatus.Compiled
       /\ mObjectType (self m') = ScriptObject.Unknown
       /\ log m'
          = [FileMutex_new kReadLock ObjFile "/cache/unit.o";
             FileMutex_new kReadLock InfoFile "/cache/unit.o.info";
             FileMutex_lock kReadLock ObjFile "/cache/unit.o" true;
             FileMutex_lock kReadLock InfoFile "/cache/unit.o.info" true;
             InputFile_new ObjFile "/cache/unit.o";
             InputFile_new InfoFile "/cache/unit.o.info";
             ALOGE "Unable to open %s for reading! (%s)";
             ScriptCompiled_new true;
             ScriptCompiled_readModule 0;
             ScriptCompiled_compile 0;
             FileMutex_new kWriteLock ObjFile "/cache/unit.o";
             FileMutex_new kWriteLock InfoFile "/cache/unit.o.info";
             FileMutex_lock kWriteLock ObjFile "/cache/unit.o" false;
             ALOGE "Unable to acquire the lock for %s! (%s)";
             ALOGE "Failed to write the cache for %s\n"]
       /\ 1 ≠ 0.
Proof.
  split; [reflexivity|]. eexists. split; [vm_compute; reflexivity|].
  repeat split. discriminate.
Qed.

(** C1, amended: let [prepareExecutable] be called on a unit in the Unknown
    state, let the cache read miss and the compile succeed. Then the call
    returns and the unit ends in the Compiled state with the compiled
    artifact. Suppose the artifact's error message is not null. If the unit
    is not cacheable, or the write path gets as far as the writer, the call
    returns 0 and the object type is Executable, whatever [writeCacheFile]
    answers: a failure of the writer is not fatal. If the unit is cacheable
    and a write lock is refused or a file cannot be opened for writing, the
    call returns 1. It also returns 1 when the artifact's error message is
    null. Whenever it returns 1 here, the object type is what it was and
    the last event is the log line that the cache could not be written. *)
Theorem prepareExecutable_writer_failure_not_fatal
    (env : Env) (cacheDir cacheName : option string) (flags : Z)
    (m m1 : Machine) (st : Z) (c : ScriptCompiled.t) :
  mStatus (self m) = ScriptStatus.Unknown ->
  internalLoadCache env cacheDir cacheName false m = Some (st, m1) ->
  st ≠ 0 ->
  new_ScriptCompiled env = Some c ->
  readModule_rc env = 0 ->
  compile_rc env = 0 ->
  exists rc m',
    prepareExecutable env cacheDir cacheName flags m = Some (rc, m')
    /\ mStatus (self m') = ScriptStatus.Compiled
    /\ mCompiled (self m') = Some c
    /\ (ScriptCompiled.getCompilerErrorMessage c ≠ None ->
        isCacheable env (self m1) = false ->
          rc = 0 /\ mObjectType (self m') = ScriptObject.Executable)
    /\ (ScriptCompiled.getCompilerErrorMessage c ≠ None ->
        isCacheable env (self m1) = true ->
        reaches_writer env (self m1) = true ->
          rc = 0 /\ mObjectType (self m') = ScriptObject.Executable
          /\ Writer_writeCacheFile
               (writeCacheFile env
                  (writer_ledger env (self m1)) c
                  (libRS_threadable (self m1))).1.1 ∈ log m')
    /\ (ScriptCompiled.getCompilerErrorMessage c = None
        \/ (isCacheable env (self m1) = true
            /\ reaches_writer env (self m1) = false) ->
          rc = 1 /\ mObjectType (self m') = mObjectType (self m1)
          /\ exists tr,
               log m' = (tr ++ [ALOGE "Failed to write the cache for %s\n"])%list).
Proof.
  intros Hs Hload Hst Hnew Hread Hcomp.
  unfold prepareExecutable. run. settle.
  rewrite bool_decide_true by exact Hst.
  rewrite (internalCompile_ok env m1 c Hnew Hread Hcomp). cbn.
  rewrite bool_decide_false by (intros Hne; exact (Hne eq_refl)).
  set (m2 := mkMachine
               (set_mStatus ScriptStatus.Compiled
                  (set_mCompiled (Some c) (self m1)))
               (files m1)
               (log m1 ++ [ScriptCompiled_new true;
                           ScriptCompiled_readModule 0;
                           ScriptCompiled_compile 0])%list).
  assert (mStatus (self m2) = ScriptStatus.Compiled) as Hs2 by reflexivity.
  assert (mCompiled (self m2) = Some c) as Hc2 by reflexivity.
  assert (isCacheable env (self m2) = isCacheable env (self m1)) as Hcache
    by reflexivity.
  assert (reaches_writer env (self m2) = reaches_writer env (self m1))
    as Hreach by reflexivity.
  assert (writer_ledger env (self m2) = writer_ledger env (self m1))
    as Hledger by reflexivity.
  assert (libRS_threadable (self m2) = libRS_threadable (self m1))
    as Hthr by reflexivity.
  assert (mObjectType (self m2) = mObjectType (self m1)) as Hobj
    by reflexivity.
  clearbody m2.
  destruct (ScriptCompiled.getCompilerErrorMessage c) as [msg|] eqn:Hmsg.
  - destruct (isCacheable env (self m1)) eqn:Hyes.
    + destruct (reaches_writer env (self m1)) eqn:Hr.
      * destruct (writeCache_reaches_writer env m2 c msg Hs2 Hc2 Hmsg Hcache
                    Hreach) as (m3 & ok & Hrun & Hself & Hok & Hin).
        rewrite Hrun. cbn.
        rewrite bool_decide_false by (intros Hne; exact (Hne eq_refl)).
        rewrite (finish_executable_compiled 0 m3 c)
          by (rewrite Hself; assumption).
        do 2 eexists. split; [reflexivity|]. cbn. rewrite Hself, Hs2, Hc2.
        split; [reflexivity|]. split; [reflexivity|].
        split; [intros; discriminate|]. split.
        -- intros _ _ _. split; [reflexivity|]. split; [reflexivity|].
           rewrite Hledger, Hthr in Hok. rewrite <- Hok. set_solver.
        -- intros [?|[_ ?]]; discriminate.
      * destruct (writeCache_blocked env m2 c msg Hs2 Hc2 Hmsg Hcache Hreach)
          as (m3 & Hrun & Hself).
        rewrite Hrun. cbn. rewrite bool_decide_true by discriminate.
        do 2 eexists. split; [reflexivity|]. cbn. rewrite Hself, Hs2, Hc2.
        split; [reflexivity|]. split; [reflexivity|].
        split; [intros; discriminate|]. split; [intros; discriminate|].
        intros _. split; [reflexivity|]. split; [exact Hobj|].
        eexists. reflexivity.
    + rewrite (writeCache_skip env m2 c msg Hs2 Hc2 Hmsg Hcache). cbn.
      rewrite bool_decide_false by (intros Hne; exact (Hne eq_refl)).
      rewrite (finish_executable_compiled 0 m2 c Hs2 Hc2).
      do 2 eexists. split; [reflexivity|]. cbn. rewrite Hs2, Hc2.
      split; [reflexivity|]. split; [reflexivity|].
      split; [intros; split; reflexivity|]. split; [intros; discriminate|].
      intros [?|[? _]]; discriminate.
  - assert (writeCache env m2 = Some (1, m2)) as Hrun.
    { unfold writeCache, getCompilerErrorMessage. run.
      rewrite Hs2. cbn.
      rewrite (bool_decide_false (ScriptStatus.Compiled ≠ ScriptStatus.Compiled))
        by (intros Hne; exact (Hne eq_refl)).
      cbn. rewrite Hs2. cbn.
      rewrite (bool_decide_false (ScriptStatus.Compiled ≠ ScriptStatus.Compiled))
        by (intros Hne; exact (Hne eq_refl)).
      cbn. rewrite Hc2. cbn. rewrite Hmsg. reflexivity. }
    rewrite Hrun. cbn. rewrite bool_decide_true by discriminate.
    do 2 eexists. split; [reflexivity|]. cbn. rewrite Hs2, Hc2.
    split; [reflexivity|]. split; [reflexivity|].
    split; [intros Hne; contradiction|]. split; [intros Hne; contradiction|].
    intros _. split; [reflexivity|]. split; [exact Hobj|].
    eexists. reflexivity.
Qed.

Lemma prepareExecutable_writer_failure_not_fatal_witness :
  exists rc m',
    prepareExecutable Sample_env_writer_fails
      (Some "/cache") (Some "unit") 0 (Sample.machine new) = Some (rc, m')
    /\ rc = 0
    /\ mStatus (self m') = ScriptStatus.Compiled
    /\ mObjectType (self m') = ScriptObject.Executable
    /\ Writer_writeCacheFile false ∈ log m'.
Proof.
  destruct (prepareExecutable_writer_failure_not_fatal
              Sample_env_writer_fails (Some "/cache") (Some "unit") 0
              (Sample.machine new) Sample_machine_after_miss 1
              Sample.compiled
              eq_refl eq_refl ltac:(discriminate) eq_refl eq_refl eq_refl)
    as (rc & m' & Hrun & Hs & _ & _ & Hreach & _).
  assert (ScriptCompiled.getCompilerErrorMessage Sample.compiled ≠ None)
    as Hmsg by discriminate.
  destruct (Hreach Hmsg eq_refl eq_refl) as (Hrc & Hobj & Hin).
  exists rc, m'. repeat split; assumption.
Defined.

End RSScriptFacts.

Module MCCacheReaderFacts.
Import MCCacheReader.

(** *** The dependency map *)

Lemma addDependency_deps (n : string) (d : SHA1) (r : t) :
  mDependencies (addDependency n d r) = mDependencies r ∪ {[n := d]}.
Proof.
  unfold addDependency. destruct (mDependencies r !! n) as [d0|] eqn:Hn; cbn.
  - apply map_eq. intros k. rewrite lookup_union.
    destruct (decide (k = n)) as [->|Hk].
    + rewrite Hn, lookup_singleton_eq. reflexivity.
    + rewrite lookup_singleton_ne by congruence.
      destruct (mDependencies r !! k); reflexivity.
  - rewrite insert_union_singleton_r by exact Hn. reflexivity.
Qed.

Lemma addDependency_rest (n : string) (d : SHA1) (r : t) :
  mIsContextSlotNotAvail (addDependency n d r) = mIsContextSlotNotAvail r
  /\ mpSymbolLookupFn (addDependency n d r) = mpSymbolLookupFn r
  /\ mpSymbolLookupContext (addDependency n d r) = mpSymbolLookupContext r.
Proof. unfold addDependency. destruct (mDependencies r !! n); auto. Qed.

(** After a run of calls the map is the one the reader had, completed by
    the first digest given for each new name. *)
Lemma addDependencies_deps (l : list (string * SHA1)) (r : t) :
  mDependencies (addDependencies l r) = mDependencies r ∪ list_to_map l.
Proof.
  unfold addDependencies. revert r.
  induction l as [|[n d] l IH]; intros r; cbn.
  - symmetry. apply (right_id_L ∅ (∪)).
  - rewrite IH, addDependency_deps, <- (assoc_L (∪)).
    rewrite <- insert_union_singleton_l. reflexivity.
Qed.

Lemma addDependencies_rest (l : list (string * SHA1)) (r : t) :
  mIsContextSlotNotAvail (addDependencies l r) = mIsContextSlotNotAvail r
  /\ mpSymbolLookupFn (addDependencies l r) = mpSymbolLookupFn r
  /\ mpSymbolLookupContext (addDependencies l r) = mpSymbolLookupContext r.
Proof.
  unfold addDependencies. revert r.
  induction l as [|[n d] l IH]; intros r; cbn; [auto|].
  destruct (IH (addDependency n d r)) as (-> & -> & ->).
  apply addDependency_rest.
Qed.

Lemma reader_eq (r1 r2 : t) :
  mDependencies r1 = mDependencies r2 ->
  mIsContextSlotNotAvail r1 = mIsContextSlotNotAvail r2 ->
  mpSymbolLookupFn r1 = mpSymbolLookupFn r2 ->
  mpSymbolLookupContext r1 = mpSymbolLookupContext r2 ->
  r1 = r2.
Proof. destruct r1, r2; cbn; congruence. Qed.

(** In a ledger that gives each name one digest, the map finds the digest
    of every pair. *)
Lemma list_to_map_functional (l : list (string * SHA1)) (n : string) (d : SHA1) :
  (forall n d1 d2, (n, d1) ∈ l -> (n, d2) ∈ l -> d1 = d2) ->
  (n, d) ∈ l ->
  (list_to_map l : gmap string SHA1) !! n = Some d.
Proof.
  intros Hfun Hin.
  destruct ((list_to_map l : gmap string SHA1) !! n) as [d0|] eqn:Hl.
  - apply elem_of_list_to_map_2 in Hl. f_equal. eapply Hfun; eassumption.
  - apply not_elem_of_list_to_map_2 in Hl. exfalso. apply Hl.
    apply list_elem_of_fmap. exists (n, d). split; [reflexivity|exact Hin].
Qed.

(** Two such ledgers with the same pairs give the same map. *)
Lemma list_to_map_same_pairs (l1 l2 : list (string * SHA1)) :
  (forall n d1 d2, (n, d1) ∈ l1 -> (n, d2) ∈ l1 -> d1 = d2) ->
  (forall x, x ∈ l1 <-> x ∈ l2) ->
  (list_to_map l1 : gmap string SHA1) = list_to_map l2.
Proof.
  intros Hfun Hsame. apply map_eq. intros n.
  destruct ((list_to_map l1 : gmap string SHA1) !! n) as [d|] eqn:Hl.
  - apply elem_of_list_to_map_2 in Hl. symmetry.
    apply list_to_map_functional; [|by apply Hsame].
    intros n' d1 d2 H1 H2. apply Hsame in H1, H2. eapply Hfun; eassumption.
  - symmetry. apply not_elem_of_list_to_map_1.
    apply not_elem_of_list_to_map_2 in Hl. intros Hin. apply Hl.
    apply list_elem_of_fmap in Hin as ([n' d] & -> & Hin).
    apply list_elem_of_fmap. exists (n', d). split; [reflexivity|].
    by apply Hsame.
Qed.

Lemma size_list_to_map_le (l : list (string * SHA1)) :
  (size (list_to_map l : gmap string SHA1) <= length l)%nat.
Proof.
  induction l as [|[n d] l IH]; cbn; [rewrite map_size_empty; lia|].
  destruct ((list_to_map l : gmap string SHA1) !! n) eqn:Hn.
  - rewrite map_size_insert_Some by (eexists; eassumption). lia.
  - rewrite map_size_insert_None by assumption. lia.
Qed.

(** The map has as many entries as the ledger only when no name repeats. *)
Lemma size_list_to_map_NoDup (l : list (string * SHA1)) :
  size (list_to_map l : gmap string SHA1) = length l -> NoDup l.*1.
Proof.
  induction l as [|[n d] l IH]; cbn; [intros _; constructor|].
  pose proof (size_list_to_map_le l) as Hle.
  destruct ((list_to_map l : gmap string SHA1) !! n) eqn:Hn.
  - rewrite map_size_insert_Some by (eexists; eassumption). lia.
  - rewrite map_size_insert_None by assumption. intros Hsz.
    constructor; [by apply not_elem_of_list_to_map_2|]. apply IH. lia.
Qed.

(** The dependency stage, seen from a ledger: a stored table passes only
    if the ledger's names are as many as its entries and every stored pair
    is found in it. *)
Lemma checkDependency_true (r : t) (stored : list (string * SHA1)) :
  checkDependency r stored = true ->
  size (mDependencies r) = length stored
  /\ forall n d, (n, d) ∈ stored -> mDependencies r !! n = Some d.
Proof.
  unfold checkDependency. intros H. apply andb_prop in H as [Hsz Hall].
  apply bool_decide_eq_true in Hsz. split; [exact Hsz|].
  intros n d Hin. rewrite forallb_forall in Hall.
  apply list_elem_of_In in Hin. specialize (Hall _ Hin). cbn in Hall.
  by apply bool_decide_eq_true in Hall.
Qed.

(** Changing one digest of the recorded ledger fails the dependency
    stage. *)
Lemma checkDependency_digest_changed
    (r : t) (l : list (string * SHA1)) (i : nat) (n : string) (d d' : SHA1) :
  mDependencies r = ∅ ->
  l !! i = Some (n, d) ->
  d ≠ d' ->
  checkDependency (addDependencies (<[i := (n, d')]> l) r) l = false.
Proof.
  intros Hempty Hi Hne. apply not_true_is_false. intros Hok.
  apply checkDependency_true in Hok as [Hsz Hall].
  rewrite addDependencies_deps, Hempty, (left_id_L ∅ (∪)) in Hsz, Hall.
  assert (length (<[i := (n, d')]> l) = length l) as Hlen
    by apply length_insert.
  rewrite <- Hlen in Hsz. apply size_list_to_map_NoDup in Hsz.
  assert ((n, d') ∈ <[i := (n, d')]> l) as Hin'.
  { apply list_elem_of_lookup. exists i. apply list_lookup_insert_eq.
    by eapply lookup_lt_Some. }
  pose proof (elem_of_list_to_map_1 _ _ _ Hsz Hin') as Hnew.
  assert ((n, d) ∈ l) as Hin by (apply list_elem_of_lookup; eauto).
  rewrite (Hall n d Hin) in Hnew. congruence.
Qed.

(** A ledger without repeated names passes the dependency stage against
    the table recorded from it. *)
Lemma checkDependency_same (r : t) (l : list (string * SHA1)) :
  mDependencies r = ∅ ->
  NoDup l.*1 ->
  checkDependency (addDependencies l r) l = true.
Proof.
  intros Hempty Hnd. unfold checkDependency.
  rewrite addDependencies_deps, Hempty, (left_id_L ∅ (∪)).
  apply andb_true_intro. split.
  - apply bool_decide_eq_true. by apply map_size_list_to_map.
  - apply forallb_forall. intros [n d] Hin. cbn.
    apply bool_decide_eq_true. apply elem_of_list_to_map_1; [exact Hnd|].
    by apply list_elem_of_In.
Qed.

(** A failed dependency stage is a miss of both public operations. *)
Lemma checkDependency_false_miss
    (fmt : CacheFormat) (obj info : list Z) (r : t) :
  checkDependency r (cachedDependTable fmt info) = false ->
  (checkCacheFile fmt obj info r).1 = false
  /\ (readCacheFile fmt obj info r).1 = None.
Proof.
  intros Hdep. unfold readCacheFile, checkCacheFile. rewrite Hdep. cbn.
  destruct (checkFileSize fmt info), (checkHeader fmt info),
    (checkMachineIntType fmt info), (checkSectionOffsetAndSize fmt info),
    (checkStringPool fmt info); cbn; split; reflexivity.
Qed.

(** C6, as stated, fails: two runs of [addDependency] calls that insert
    the same set of (name, digest) pairs in opposite orders can end in
    different outcomes when the pairs share a name, because the map keeps
    the first digest inserted for a name. Against a cache recorded with
    the first pair, one order hits and the other misses. *)
Lemma same_pairs_different_outcome :
  (forall x, x ∈ Sample_ledger_a <-> x ∈ Sample_ledger_b)
  /\ (checkCacheFile Sample_layout_foo [] []
        (addDependencies Sample_ledger_a new)).1 = true
  /\ (checkCacheFile Sample_layout_foo [] []
        (addDependencies Sample_ledger_b new)).1 = false
  /\ (readCacheFile Sample_layout_foo [] []
        (addDependencies Sample_ledger_a new)).1 = Some Sample.cached
  /\ (readCacheFile Sample_layout_foo [] []
        (addDependencies Sample_ledger_b new)).1 = None.
Proof.
  split; [|repeat split; vm_compute; reflexivity].
  intros x. unfold Sample_ledger_a, Sample_ledger_b.
  rewrite !elem_of_cons, !elem_of_nil. tauto.
Qed.

(** C6, amended: the reader's dependency comparison does not depend on the
    order of the [addDependency] calls, provided no name is inserted with
    two different digests. For two runs of calls that insert the same set
    of pairs, each name with one digest, the reader ends in the same state,
    so [checkCacheFile] and [readCacheFile] answer the same. A change to
    any single digest of the ledger a cache was recorded with makes the
    dependency stage fail, so both operations miss; the unchanged ledger
    (its names distinct) passes that stage. *)
Theorem dependency_check_by_name
    (fmt : CacheFormat) (obj info : list Z) (r : t) :
  (forall l1 l2 : list (string * SHA1),
     (forall n d1 d2, (n, d1) ∈ l1 -> (n, d2) ∈ l1 -> d1 = d2) ->
     (forall x, x ∈ l1 <-> x ∈ l2) ->
     addDependencies l1 r = addDependencies l2 r
     /\ checkCacheFile fmt obj info (addDependencies l1 r)
        = checkCacheFile fmt obj info (addDependencies l2 r)
     /\ readCacheFile fmt obj info (addDependencies l1 r)
        = readCacheFile fmt obj info (addDependencies l2 r))
  /\ (forall (l : list (string * SHA1)) (i : nat) n d d',
        mDependencies r = ∅ ->
        cachedDependTable fmt info = l ->
        l !! i = Some (n, d) ->
        d ≠ d' ->
        (checkCacheFile fmt obj info
           (addDependencies (<[i := (n, d')]> l) r)).1 = false
        /\ (readCacheFile fmt obj info
              (addDependencies (<[i := (n, d')]> l) r)).1 = None)
  /\ (forall l : list (string * SHA1),
        mDependencies r = ∅ ->
        NoDup l.*1 ->
        checkDependency (addDependencies l r) l = true).
Proof.
  split; [|split].
  - intros l1 l2 Hfun Hsame.
    assert (addDependencies l1 r = addDependencies l2 r) as Heq.
    { destruct (addDependencies_rest l1 r) as (Ha1 & Hb1 & Hc1).
      destruct (addDependencies_rest l2 r) as (Ha2 & Hb2 & Hc2).
      apply reader_eq; try congruence.
      rewrite !addDependencies_deps. f_equal.
      by apply list_to_map_same_pairs. }
    rewrite Heq. repeat split.
  - intros l i n d d' Hempty Htable Hi Hne.
    apply checkDependency_false_miss. rewrite Htable.
    by eapply checkDependency_digest_changed.
  - intros l Hempty Hnd. by apply checkDependency_same.
Qed.

Lemma dependency_check_by_name_witness :
  addDependencies
    [("a.bc", Sample.digest 1); ("b.bc", Sample.digest 2)] new
  = addDependencies
      [("b.bc", Sample.digest 2); ("a.bc", Sample.digest 1)] new
  /\ (checkCacheFile
        (Sample.layout
           [("a.bc", Sample.digest 1); ("b.bc", Sample.digest 2)] 8) [] []
        (addDependencies
           [("a.bc", Sample.digest 1); ("b.bc", Sample.digest 3)] new)).1
     = false
  /\ checkDependency
       (addDependencies
          [("a.bc", Sample.digest 1); ("b.bc", Sample.digest 2)] new)
       [("a.bc", Sample.digest 1); ("b.bc", Sample.digest 2)]
     = true.
Proof.
  split; [|split].
  - refine (proj1 (proj1 (dependency_check_by_name
                            (Sample.layout [] 8) [] [] new) _ _ _ _)).
    + intros n d1 d2 H1 H2.
      rewrite !elem_of_cons, elem_of_nil in H1, H2.
      destruct H1 as [H1|[H1|[]]], H2 as [H2|[H2|[]]]; congruence.
    + intros x. rewrite !elem_of_cons, !elem_of_nil. tauto.
  - refine (proj1 (proj1 (proj2 (dependency_check_by_name
              (Sample.layout
                 [("a.bc", Sample.digest 1); ("b.bc", Sample.digest 2)] 8)
              [] [] new))
              [("a.bc", Sample.digest 1); ("b.bc", Sample.digest 2)]
              1%nat "b.bc" (Sample.digest 2) (Sample.digest 3)
              eq_refl eq_refl eq_refl _)).
    discriminate.
  - refine (proj2 (proj2 (dependency_check_by_name
                            (Sample.layout [] 8) [] [] new)) _ eq_refl _).
    apply (bool_decide_unpack _). vm_compute. exact I.
Defined.

End MCCacheReaderFacts.

Module ReadPathFacts.
Import RSScript RSScriptFacts.

(** *** The sticky context-slot flag *)

(** A read that reaches the reader and fails: status 1, and the unit's
    flag is the reader's. *)
Lemma internalLoadCache_read_miss
    (env : Env) (dir name : string) (m : Machine) (obj info : list Z)
    (reader' : MCCacheReader.t) :
  let s1 := with_cache_names dir name (self m) in
  isCacheable env s1 = true ->
  read_locks_granted env s1 = true ->
  InputFile_open env (getCachedObjectPath env s1) (files m) = Some obj ->
  InputFile_open env (getCacheInfoPath env s1) (files m) = Some info ->
  MCCacheReader.readCacheFile (format env) obj info (make_reader env s1)
  = (None, reader') ->
  internalLoadCache env (Some dir) (Some name) false m
  = Some (1, mkMachine
               (set_mIsContextSlotNotAvail
                  (MCCacheReader.isContextSlotNotAvail reader') s1)
               (files m)
               (log m
                ++ [FileMutex_new kReadLock ObjFile (getCachedObjectPath env s1);
                    FileMutex_new kReadLock InfoFile (getCacheInfoPath env s1);
                    FileMutex_lock kReadLock ObjFile
                                   (getCachedObjectPath env s1) true;
                    FileMutex_lock kReadLock InfoFile
                                   (getCacheInfoPath env s1) true;
                    InputFile_new ObjFile (getCachedObjectPath env s1);
                    InputFile_new InfoFile (getCacheInfoPath env s1);
                    Reader_readCacheFile false])).
Proof.
  intros s1 Hyes Hlocks Hobj Hinfo Hread. unfold read_locks_granted in Hlocks.
  repeat (apply andb_prop in Hlocks as [Hlocks ?]).
  repeat match goal with
         | H : negb _ = true |- _ => apply negb_true_iff in H
         end.
  unfold internalLoadCache, acquire. run.
  rewrite store_cache_names_run. fold s1. clearbody s1. settle.
  rewrite <- ?app_assoc. reflexivity.
Qed.

(** The reader [internalLoadCache] sets up starts with the flag down. *)
Lemma make_reader_flag (env : Env) (s : t) :
  MCCacheReader.isContextSlotNotAvail (make_reader env s) = false.
Proof.
  unfold make_reader, MCCacheReader.isContextSlotNotAvail.
  destruct (MCCacheReaderFacts.addDependencies_rest
              (reader_ledger env s)
              match mpExtSymbolLookupFn s with
              | Some fn =>
                  MCCacheReader.registerSymbolCallback
                    (Some fn) (mpExtSymbolLookupFnContext s) MCCacheReader.new
              | None => MCCacheReader.new
              end) as (-> & _).
  destruct (mpExtSymbolLookupFn s); reflexivity.
Qed.

(** Stage 7 rejects: both operations miss and the flag is up. *)
Lemma reader_context_rejected
    (fmt : CacheFormat) (obj info : list Z) (r : MCCacheReader.t) :
  layout_ok fmt info = true ->
  MCCacheReader.checkDependency r (cachedDependTable fmt info) = true ->
  forallb (contextSlotAvail fmt) (objectSlotList fmt info) = false ->
  exists r',
    MCCacheReader.readCacheFile fmt obj info r = (None, r')
    /\ MCCacheReader.checkCacheFile fmt obj info r = (false, r')
    /\ MCCacheReader.isContextSlotNotAvail r' = true
    /\ MCCacheReader.mDependencies r' = MCCacheReader.mDependencies r.
Proof.
  unfold layout_ok. intros Hlayout Hdep Hslots.
  repeat (apply andb_prop in Hlayout as [Hlayout ?]).
  unfold MCCacheReader.readCacheFile, MCCacheReader.checkCacheFile,
    MCCacheReader.checkContext.
  settle. eexists. repeat split.
Qed.

(** Stage 6 rejects: both operations miss and the reader is as it was. *)
Lemma reader_dependency_rejected
    (fmt : CacheFormat) (obj info : list Z) (r : MCCacheReader.t) :
  layout_ok fmt info = true ->
  MCCacheReader.checkDependency r (cachedDependTable fmt info) = false ->
  MCCacheReader.readCacheFile fmt obj info r = (None, r)
  /\ MCCacheReader.checkCacheFile fmt obj info r = (false, r).
Proof.
  unfold layout_ok. intros Hlayout Hdep.
  repeat (apply andb_prop in Hlayout as [Hlayout ?]).
  unfold MCCacheReader.readCacheFile, MCCacheReader.checkCacheFile.
  settle. split; reflexivity.
Qed.

(** No operation of the reader lowers the flag. *)
Lemma reader_flag_sticky
    (fmt : CacheFormat) (obj info : list Z) (r : MCCacheReader.t) :
  MCCacheReader.isContextSlotNotAvail r = true ->
  MCCacheReader.isContextSlotNotAvail
    (MCCacheReader.checkCacheFile fmt obj info r).2 = true
  /\ MCCacheReader.isContextSlotNotAvail
       (MCCacheReader.readCacheFile fmt obj info r).2 = true
  /\ (forall n d,
        MCCacheReader.isContextSlotNotAvail
          (MCCacheReader.addDependency n d r) = true)
  /\ (forall fn ctx,
        MCCacheReader.isContextSlotNotAvail
          (MCCacheReader.registerSymbolCallback fn ctx r) = true).
Proof.
  intros Hflag.
  assert (MCCacheReader.isContextSlotNotAvail
            (MCCacheReader.checkCacheFile fmt obj info r).2 = true) as Hcheck.
  { unfold MCCacheReader.checkCacheFile, MCCacheReader.checkContext.
    repeat branch; assumption || reflexivity. }
  split; [exact Hcheck|]. split; [|split].
  - unfold MCCacheReader.readCacheFile.
    destruct (MCCacheReader.checkCacheFile fmt obj info r) as [ok r'].
    cbn in Hcheck. destruct ok; [|exact Hcheck].
    destruct (MCCacheReader.relocate fmt info r'); exact Hcheck.
  - intros n d. unfold MCCacheReader.isContextSlotNotAvail.
    by destruct (MCCacheReaderFacts.addDependency_rest n d r) as (-> & _).
  - intros fn ctx. exact Hflag.
Qed.

(** C5: when the reader rejects a cache because the recorded object-slot
    list does not fit the host's slot layout, it raises its context-slot
    flag, and no later operation of the reader lowers it. On every failed
    read the orchestrator copies the reader's flag into the unit and
    reports a miss, the unit staying in its state. So after a rejection at
    the context-slot stage the unit's flag is up, while after a rejection
    at the dependency stage it is down: the caller can tell the two
    apart. *)
Theorem context_slot_flag_reported
    (env : Env) (dir name : string) (m : Machine) (obj info : list Z) :
  let s1 := with_cache_names dir name (self m) in
  let fmt := format env in
  let reader := make_reader env s1 in
  isCacheable env s1 = true ->
  read_locks_granted env s1 = true ->
  InputFile_open env (getCachedObjectPath env s1) (files m) = Some obj ->
  InputFile_open env (getCacheInfoPath env s1) (files m) = Some info ->
  (layout_ok fmt info = true ->
   MCCacheReader.checkDependency reader (cachedDependTable fmt info) = true ->
   forallb (contextSlotAvail fmt) (objectSlotList fmt info) = false ->
   exists reader' m',
     MCCacheReader.readCacheFile fmt obj info reader = (None, reader')
     /\ MCCacheReader.isContextSlotNotAvail reader' = true
     /\ internalLoadCache env (Some dir) (Some name) false m = Some (1, m')
     /\ mIsContextSlotNotAvail (self m') = true
     /\ mStatus (self m') = mStatus (self m))
  /\ (forall reader',
        MCCacheReader.readCacheFile fmt obj info reader = (None, reader') ->
        exists m',
          internalLoadCache env (Some dir) (Some name) false m = Some (1, m')
          /\ mIsContextSlotNotAvail (self m')
             = MCCacheReader.isContextSlotNotAvail reader'
          /\ mStatus (self m') = mStatus (self m))
  /\ (layout_ok fmt info = true ->
      MCCacheReader.checkDependency reader (cachedDependTable fmt info)
      = false ->
      exists reader' m',
        MCCacheReader.readCacheFile fmt obj info reader = (None, reader')
        /\ MCCacheReader.isContextSlotNotAvail reader' = false
        /\ internalLoadCache env (Some dir) (Some name) false m = Some (1, m')
        /\ mIsContextSlotNotAvail (self m') = false)
  /\ (forall r,
        MCCacheReader.isContextSlotNotAvail r = true ->
        MCCacheReader.isContextSlotNotAvail
          (MCCacheReader.checkCacheFile fmt obj info r).2 = true
        /\ MCCacheReader.isContextSlotNotAvail
             (MCCacheReader.readCacheFile fmt obj info r).2 = true).
Proof.
  intros s1 fmt reader Hyes Hlocks Hobj Hinfo.
  assert (forall reader',
            MCCacheReader.readCacheFile fmt obj info reader = (None, reader') ->
            exists m',
              internalLoadCache env (Some dir) (Some name) false m
              = Some (1, m')
              /\ mIsContextSlotNotAvail (self m')
                 = MCCacheReader.isContextSlotNotAvail reader'
              /\ mStatus (self m') = mStatus (self m)) as Hcopy.
  { intros reader' Hread.
    rewrite (internalLoadCache_read_miss env dir name m obj info reader'
               Hyes Hlocks Hobj Hinfo Hread).
    eexists. split; [reflexivity|]. split; reflexivity. }
  split; [|split; [exact Hcopy|split]].
  - intros Hlayout Hdep Hslots.
    destruct (reader_context_rejected fmt obj info reader Hlayout Hdep Hslots)
      as (reader' & Hread & _ & Hflag & _).
    destruct (Hcopy reader' Hread) as (m' & Hrun & Hunit & Hstatus).
    exists reader', m'. rewrite Hunit. repeat split; assumption.
  - intros Hlayout Hdep.
    destruct (reader_dependency_rejected fmt obj info reader Hlayout Hdep)
      as [Hread _].
    destruct (Hcopy reader Hread) as (m' & Hrun & Hunit & _).
    exists reader, m'. rewrite Hunit.
    repeat split; try assumption; apply make_reader_flag.
  - intros r Hflag.
    destruct (reader_flag_sticky fmt obj info r Hflag) as (H1 & H2 & _).
    split; assumption.
Qed.

Lemma context_slot_flag_reported_witness :
  (exists m',
     internalLoadCache (Sample_env_slots 1 7) (Some "/cache") (Some "unit")
       false Sample_machine_with_cache = Some (1, m')
     /\ mIsContextSlotNotAvail (self m') = true)
  /\ (exists m',
        internalLoadCache (Sample_env_slots 9 7) (Some "/cache") (Some "unit")
          false Sample_machine_with_cache = Some (1, m')
        /\ mIsContextSlotNotAvail (self m') = false).
Proof.
  split.
  - destruct (proj1 (context_slot_flag_reported
                (Sample_env_slots 1 7) "/cache" "unit"
                Sample_machine_with_cache [127; 69; 76; 70] [1; 2; 3]
                eq_refl eq_refl eq_refl eq_refl) eq_refl eq_refl eq_refl)
      as (reader' & m' & _ & _ & Hrun & Hflag & _).
    exists m'. split; assumption.
  - destruct (proj1 (proj2 (proj2 (context_slot_flag_reported
                (Sample_env_slots 9 7) "/cache" "unit"
                Sample_machine_with_cache [127; 69; 76; 70] [1; 2; 3]
                eq_refl eq_refl eq_refl eq_refl))) eq_refl eq_refl)
      as (reader' & m' & _ & _ & Hrun & Hflag).
    exists m'. split; assumption.
Defined.

End ReadPathFacts.

Module LifecycleFacts.
Import RSScript RSScriptFacts.

(** *** What each step of [prepareExecutable] can change *)

(** The read step on its own. *)
Lemma internalLoadCache_effect
    (env : Env) (cacheDir cacheName : option string) (checkOnly : bool)
    (m : Machine) :
  exists rc m',
    internalLoadCache env cacheDir cacheName checkOnly m = Some (rc, m')
    /\ (rc = 0 \/ rc = 1)
    /\ files m' = files m
    /\ mErrorCode (self m') = mErrorCode (self m)
    /\ mObjectType (self m') = mObjectType (self m)
    /\ mCompiled (self m') = mCompiled (self m)
    /\ mSourceDependencies (self m') = mSourceDependencies (self m)
    /\ mpExtSymbolLookupFn (self m') = mpExtSymbolLookupFn (self m)
    /\ mpExtSymbolLookupFnContext (self m')
       = mpExtSymbolLookupFnContext (self m)
    /\ (checkOnly = true ->
          mStatus (self m') = mStatus (self m)
          /\ mCached (self m') = mCached (self m)
          /\ mIsContextSlotNotAvail (self m')
             = mIsContextSlotNotAvail (self m))
    /\ (checkOnly = false -> rc = 0 ->
          mStatus (self m') = ScriptStatus.Cached
          /\ is_Some (mCached (self m')))
    /\ (rc = 1 ->
          mStatus (self m') = mStatus (self m)
          /\ mCached (self m') = mCached (self m)).
Proof.
  destruct cacheDir as [dir|], cacheName as [name|];
    try (exists 1, m; repeat split; auto; discriminate).
  unfold internalLoadCache, acquire. run.
  rewrite store_cache_names_run. cbn.
  repeat branch.
  all: do 2 eexists; (split; [reflexivity|]); cbn.
  all: repeat split; auto; try discriminate; try (intros; discriminate).
  all: try (intros; eexists; reflexivity).
Qed.

(** The compile step on its own. *)
Lemma internalCompile_effect (env : Env) (m : Machine) :
  exists rc m',
    internalCompile env m = Some (rc, m')
    /\ (rc = 0 \/ rc = 1)
    /\ files m' = files m
    /\ mObjectType (self m') = mObjectType (self m)
    /\ mCached (self m') = mCached (self m)
    /\ mCompiled (self m') = new_ScriptCompiled env
    /\ (new_ScriptCompiled env = None ->
          rc = 1 /\ mStatus (self m') = mStatus (self m)
          /\ mErrorCode (self m') = BCC_OUT_OF_MEMORY)
    /\ (is_Some (new_ScriptCompiled env) ->
          mStatus (self m') = ScriptStatus.Compiled
          /\ mErrorCode (self m') = mErrorCode (self m))
    /\ (rc = 0 ->
          is_Some (new_ScriptCompiled env)
          /\ readModule_rc env = 0 /\ compile_rc env = 0)
    /\ mSourceDependencies (self m') = mSourceDependencies (self m)
    /\ mpExtSymbolLookupFn (self m') = mpExtSymbolLookupFn (self m)
    /\ mpExtSymbolLookupFnContext (self m')
       = mpExtSymbolLookupFnContext (self m).
Proof.
  unfold internalCompile. run.
  destruct (new_ScriptCompiled env) as [c|] eqn:Hnew; cbn.
  - repeat branch.
    all: do 2 eexists; (split; [reflexivity|]); cbn.
    all: repeat split; auto; try discriminate;
      try (intros; discriminate); try (intros [? ?]; discriminate).
    all: try (intros; eexists; reflexivity).
    all: lia.
  - do 2 eexists. split; [reflexivity|]. cbn.
    repeat split; auto; try discriminate; try (intros; discriminate);
      try (intros [? ?]; discriminate).
    all: match goal with H : is_Some None |- _ => destruct H; discriminate end.
Qed.

(** The write step on a compiled unit: it returns 0 or 1 and leaves the
    unit as it was. *)
Lemma writeCache_effect (env : Env) (m : Machine) (c : ScriptCompiled.t) :
  mStatus (self m) = ScriptStatus.Compiled ->
  mCompiled (self m) = Some c ->
  exists rc m',
    writeCache env m = Some (rc, m')
    /\ (rc = 0 \/ rc = 1)
    /\ self m' = self m.
Proof.
  intros Hs Hc.
  unfold writeCache, getCompilerErrorMessage, acquire, discard_cache_files.
  run. settle.
  repeat branch; try congruence.
  all: do 2 eexists; (split; [reflexivity|]); cbn; auto.
Qed.

Lemma finish_executable_cached
    (status : Z) (m : Machine) (c : ScriptCached.t) :
  mStatus (self m) = ScriptStatus.Cached ->
  mCached (self m) = Some c ->
  finish_executable status m
  = Some (status,
          mkMachine (set_mObjectType ScriptObject.Executable (self m))
                    (files m)
                    (log m ++ [RegisterObjectWithGDB
                                 (ScriptCached.getELF c)
                                 (ScriptCached.getELFSize c)])).
Proof.
  intros Hs Hc. unfold finish_executable, getELF, getELFSize, dispatch. run.
  settle. reflexivity.
Qed.

(** Asking for the compiler's message never goes through a null pointer on
    a unit whose artifact is present; it changes at most the error code. *)
Lemma getCompilerErrorMessage_effect (m : Machine) :
  artifact_present (self m) ->
  exists msg m',
    getCompilerErrorMessage m = Some (msg, m')
    /\ files m' = files m
    /\ log m' = log m
    /\ (mStatus (self m) = ScriptStatus.Compiled -> self m' = self m)
    /\ (mStatus (self m) ≠ ScriptStatus.Compiled ->
          msg = None
          /\ self m' = set_mErrorCode BCC_INVALID_OPERATION (self m)).
Proof.
  unfold artifact_present, getCompilerErrorMessage. run.
  destruct (mStatus (self m)) eqn:Hs; intros Hwf; settle.
  - do 2 eexists. repeat split; auto; congruence.
  - destruct Hwf as [c Hc]. rewrite Hc. cbn.
    do 2 eexists. repeat split; auto; congruence.
  - do 2 eexists. repeat split; auto; congruence.
Qed.

(** X1: the read path never writes. Whatever the collaborators answer,
    [internalLoadCache] returns 0 or 1 and leaves the file system, the
    error code, the object type, the compiled artifact, the dependency
    records and the callback as they were. With [checkOnly] set it changes
    nothing of the unit but the stored cache names. Without it, 0 means the
    unit is now Cached with its artifact, and 1 means state and cached
    artifact are untouched. *)
Theorem internalLoadCache_read_only
    (env : Env) (cacheDir cacheName : option string) (checkOnly : bool)
    (m : Machine) :
  exists rc m',
    internalLoadCache env cacheDir cacheName checkOnly m = Some (rc, m')
    /\ (rc = 0 \/ rc = 1)
    /\ files m' = files m
    /\ mErrorCode (self m') = mErrorCode (self m)
    /\ mObjectType (self m') = mObjectType (self m)
    /\ mCompiled (self m') = mCompiled (self m)
    /\ mSourceDependencies (self m') = mSourceDependencies (self m)
    /\ mpExtSymbolLookupFn (self m') = mpExtSymbolLookupFn (self m)
    /\ mpExtSymbolLookupFnContext (self m')
       = mpExtSymbolLookupFnContext (self m)
    /\ (checkOnly = true ->
          mStatus (self m') = mStatus (self m)
          /\ mCached (self m') = mCached (self m)
          /\ mIsContextSlotNotAvail (self m')
             = mIsContextSlotNotAvail (self m))
    /\ (checkOnly = false -> rc = 0 ->
          mStatus (self m') = ScriptStatus.Cached
          /\ is_Some (mCached (self m')))
    /\ (rc = 1 ->
          mStatus (self m') = mStatus (self m)
          /\ mCached (self m') = mCached (self m)).
Proof. apply internalLoadCache_effect. Qed.

(** The whole call, for the proofs below. *)
Lemma prepareExecutable_effect
    (env : Env) (cacheDir cacheName : option string) (flags : Z) (m : Machine) :
  artifact_present (self m) ->
  exists rc m',
    prepareExecutable env cacheDir cacheName flags m = Some (rc, m')
    /\ (rc = 0 \/ rc = 1)
    /\ artifact_present (self m')
    /\ (rc = 0 ->
          mStatus (self m) = ScriptStatus.Unknown
          /\ mStatus (self m') ≠ ScriptStatus.Unknown
          /\ mObjectType (self m') = ScriptObject.Executable)
    /\ (rc = 1 -> mObjectType (self m') = mObjectType (self m))
    /\ (mStatus (self m) ≠ ScriptStatus.Unknown ->
          mStatus (self m') = mStatus (self m))
    /\ mSourceDependencies (self m') = mSourceDependencies (self m)
    /\ mpExtSymbolLookupFn (self m') = mpExtSymbolLookupFn (self m)
    /\ mpExtSymbolLookupFnContext (self m')
       = mpExtSymbolLookupFnContext (self m).
Proof.
  intros Hwf. unfold prepareExecutable. run.
  destruct (decide (mStatus (self m) = ScriptStatus.Unknown)) as [Hs|Hs].
  2:{ rewrite bool_decide_true by exact Hs.
      do 2 eexists. split; [reflexivity|]. cbn.
      repeat split; auto; try discriminate. }
  rewrite bool_decide_false by (intros Hne; exact (Hne Hs)).
  destruct (internalLoadCache_effect env cacheDir cacheName false m)
    as (st & m1 & Hload & Hst & Hf1 & He1 & Ho1 & Hc1 & Hd1 & Hfn1 & Hctx1
        & _ & Hhit & Hmiss).
  rewrite Hload. cbn. destruct Hst as [-> | ->].
  - (* hit *)
    rewrite bool_decide_false by (intros Hne; exact (Hne eq_refl)).
    destruct (Hhit eq_refl eq_refl) as [Hs1 [c Hc]].
    rewrite (finish_executable_cached 0 m1 c Hs1 Hc).
    do 2 eexists. split; [reflexivity|]. unfold artifact_present. cbn.
    rewrite Hs1, Hc.
    repeat split; auto; try discriminate; eauto; intros; contradiction.
  - (* miss *)
    rewrite bool_decide_true by discriminate.
    destruct (Hmiss eq_refl) as [Hs1 Hk1].
    destruct (internalCompile_effect env m1)
      as (rc2 & m2 & Hcomp & Hrc2 & Hf2 & Ho2 & Hk2 & Hc2 & Hoom & Hnew & Hok
          & Hd2 & Hfn2 & Hctx2).
    rewrite Hcomp. cbn. destruct Hrc2 as [-> | ->].
    + (* compiled *)
      rewrite bool_decide_false by (intros Hne; exact (Hne eq_refl)).
      destruct (Hok eq_refl) as ([c Hc] & _ & _).
      destruct (Hnew (ex_intro _ c Hc)) as [Hs2 He2].
      rewrite Hc in Hc2.
      destruct (writeCache_effect env m2 c Hs2 Hc2)
        as (rc3 & m3 & Hwrite & Hrc3 & Hself3).
      rewrite Hwrite. cbn. destruct Hrc3 as [-> | ->].
      * rewrite bool_decide_false by (intros Hne; exact (Hne eq_refl)).
        rewrite (finish_executable_compiled 0 m3 c)
          by (rewrite Hself3; assumption).
        do 2 eexists. split; [reflexivity|]. unfold artifact_present. cbn.
        rewrite Hself3, Hs2, Hc2.
        repeat split; auto; try discriminate; eauto;
          try (intros; contradiction); congruence.
      * rewrite bool_decide_true by discriminate.
        do 2 eexists. split; [reflexivity|]. unfold artifact_present. cbn.
        rewrite Hself3, Hs2, Hc2.
        repeat split; auto; try discriminate; eauto;
          try (intros; contradiction); congruence.
    + (* compile failed *)
      rewrite bool_decide_true by discriminate.
      assert (artifact_present (self m2)) as Hwf2.
      { unfold artifact_present.
        destruct (new_ScriptCompiled env) as [c|] eqn:Hc.
        - destruct (Hnew (ex_intro _ c eq_refl)) as [-> _]. rewrite Hc2. eauto.
        - destruct (Hoom eq_refl) as (_ & -> & _). rewrite Hs1, Hs. exact I. }
      destruct (getCompilerErrorMessage_effect m2 Hwf2)
        as (msg & m3 & Hmsg & Hf3 & Hl3 & Hsame & Hset).
      rewrite Hmsg. cbn.
      do 2 eexists. split; [reflexivity|]. cbn.
      destruct (decide (mStatus (self m2) = ScriptStatus.Compiled)) as [E|E].
      * rewrite (Hsame E).
        repeat split; auto; try discriminate;
          try (intros; contradiction); try congruence.
      * destruct (Hset E) as [_ ->]. unfold artifact_present in *. cbn.
        repeat split; auto; try discriminate;
          try (intros; contradiction); try congruence.
Qed.

(** X2: [prepareExecutable] always returns, with 0 or 1, on any unit
    whose artifact is present (in particular on every fresh or reset unit),
    and the artifact of the resulting state is present again: no path of
    the call goes through a null pointer. It returns 0 only if the unit was
    in the Unknown state; the unit is then Cached or Compiled and its
    object type is Executable. When it returns 1 the object type is what it
    was. The dependency records and the callback are never changed. *)
Theorem prepareExecutable_outcome
    (env : Env) (cacheDir cacheName : option string) (flags : Z) (m : Machine) :
  artifact_present (self m) ->
  exists rc m',
    prepareExecutable env cacheDir cacheName flags m = Some (rc, m')
    /\ (rc = 0 \/ rc = 1)
    /\ artifact_present (self m')
    /\ (rc = 0 ->
          mStatus (self m) = ScriptStatus.Unknown
          /\ mStatus (self m') ≠ ScriptStatus.Unknown
          /\ mObjectType (self m') = ScriptObject.Executable)
    /\ (rc = 1 -> mObjectType (self m') = mObjectType (self m))
    /\ mSourceDependencies (self m') = mSourceDependencies (self m)
    /\ mpExtSymbolLookupFn (self m') = mpExtSymbolLookupFn (self m)
    /\ mpExtSymbolLookupFnContext (self m')
       = mpExtSymbolLookupFnContext (self m).
Proof.
  intros Hwf.
  destruct (prepareExecutable_effect env cacheDir cacheName flags m Hwf)
    as (rc & m' & Hrun & Hrc & Hwf' & Hok & Hfail & _ & Hd & Hfn & Hctx).
  exists rc, m'. repeat split; try assumption; apply Hok; assumption.
Qed.

(** *** Histories of calls *)

Lemma do_call_invariant (env : Env) (c : Call) (m : Machine) :
  lifecycle_invariant (self m) ->
  exists m',
    do_call env c m = Some (tt, m') /\ lifecycle_invariant (self m').
Proof.
  intros [Hwf Htype]. destruct c as [dir name flags| |pFn pContext|n d]; cbn.
  - destruct (prepareExecutable_effect env dir name flags m Hwf)
      as (rc & m' & Hrun & Hrc & Hwf' & Hok & Hfail & Hkeep & _).
    unfold mbind, M_bind, mret, M_ret. rewrite Hrun. cbn.
    eexists. split; [reflexivity|]. split; [exact Hwf'|].
    destruct Hrc as [-> | ->].
    + right. destruct (Hok eq_refl) as (_ & ? & ?). split; assumption.
    + rewrite (Hfail eq_refl).
      destruct Htype as [?|[? Hne]]; [by left|right].
      split; [assumption|]. by rewrite (Hkeep Hne).
  - eexists. split; [reflexivity|]. split; [exact I|by left].
  - unfold registerSymbolCallback. run.
    unfold lifecycle_invariant, artifact_present in *.
    destruct (bool_decide (mStatus (self m) ≠ ScriptStatus.Unknown));
      (eexists; split; [reflexivity|]; cbn; split; assumption).
  - unfold modify_self, addSourceDependency.
    unfold lifecycle_invariant, artifact_present in *.
    destruct (new_SourceDependency_ok env);
      (eexists; split; [reflexivity|]; cbn; split; assumption).
Qed.

Lemma do_calls_invariant (cs : list (Env * Call)) (m : Machine) :
  lifecycle_invariant (self m) ->
  exists m',
    do_calls cs m = Some (tt, m') /\ lifecycle_invariant (self m').
Proof.
  revert m. induction cs as [|[env c] cs IH]; intros m Hinv; cbn.
  - eexists. split; [reflexivity|exact Hinv].
  - destruct (do_call_invariant env c m Hinv) as (m1 & Hrun & Hinv1).
    unfold mbind, M_bind. rewrite Hrun.
    apply IH, Hinv1.
Qed.

(** Every export accessor is defined on a unit whose artifact is
    present. *)
Lemma accessors_defined (s : t) :
  artifact_present s ->
  is_Some (getExportVarCount s) /\ is_Some (getExportFuncCount s)
  /\ is_Some (getExportForEachCount s) /\ is_Some (getPragmaCount s)
  /\ is_Some (getFuncCount s) /\ is_Some (getObjectSlotCount s)
  /\ is_Some (getELFSize s) /\ is_Some (getELF s).
Proof.
  unfold artifact_present, getExportVarCount, getExportFuncCount,
    getExportForEachCount, getPragmaCount, getFuncCount, getObjectSlotCount,
    getELFSize, getELF, dispatch.
  destruct (mStatus s); [intros _|intros [c ->]|intros [c ->]];
    cbn; repeat split; eauto.
Qed.

(** X3: no history of calls to the guarded entry points
    ([prepareExecutable], [doReset], [registerSymbolCallback],
    [addSourceDependency]), started on a freshly constructed unit and with
    the collaborators answering anything at each call, goes through a null
    pointer. After any such history the state has its artifact, so every
    export accessor is defined; and the object type is either Unknown, or
    Executable on a unit that is Cached or Compiled. *)
Theorem call_history_safe (cs : list (Env * Call)) (fs : gmap string (list Z)) :
  exists m',
    do_calls cs (mkMachine new fs []) = Some (tt, m')
    /\ lifecycle_invariant (self m')
    /\ is_Some (getExportVarCount (self m'))
    /\ is_Some (getExportFuncCount (self m'))
    /\ is_Some (getExportForEachCount (self m'))
    /\ is_Some (getPragmaCount (self m'))
    /\ is_Some (getFuncCount (self m'))
    /\ is_Some (getObjectSlotCount (self m'))
    /\ is_Some (getELFSize (self m'))
    /\ is_Some (getELF (self m')).
Proof.
  destruct (do_calls_invariant cs (mkMachine new fs []))
    as (m' & Hrun & Hinv).
  { split; [exact I|by left]. }
  exists m'. split; [exact Hrun|]. split; [exact Hinv|].
  apply accessors_defined, Hinv.
Qed.

(** *** The cache hit *)

#[local] Arguments internalLoadCache : simpl never.
#[local] Arguments internalCompile : simpl never.
#[local] Arguments writeCache : simpl never.

(** A read that reaches the reader and succeeds. *)
Lemma internalLoadCache_read_hit
    (env : Env) (dir name : string) (m : Machine) (obj info : list Z)
    (c : ScriptCached.t) (reader' : MCCacheReader.t) :
  let s1 := with_cache_names dir name (self m) in
  isCacheable env s1 = true ->
  read_locks_granted env s1 = true ->
  InputFile_open env (getCachedObjectPath env s1) (files m) = Some obj ->
  InputFile_open env (getCacheInfoPath env s1) (files m) = Some info ->
  MCCacheReader.readCacheFile (format env) obj info (make_reader env s1)
  = (Some c, reader') ->
  internalLoadCache env (Some dir) (Some name) false m
  = Some (0, mkMachine
               (set_mStatus ScriptStatus.Cached (set_mCached (Some c) s1))
               (files m)
               (log m
                ++ [FileMutex_new kReadLock ObjFile (getCachedObjectPath env s1);
                    FileMutex_new kReadLock InfoFile (getCacheInfoPath env s1);
                    FileMutex_lock kReadLock ObjFile
                                   (getCachedObjectPath env s1) true;
                    FileMutex_lock kReadLock InfoFile
                                   (getCacheInfoPath env s1) true;
                    InputFile_new ObjFile (getCachedObjectPath env s1);
                    InputFile_new InfoFile (getCacheInfoPath env s1);
                    Reader_readCacheFile true]
                ++ (if negb (ScriptCached.isLibRSThreadable c)
                       && bool_decide (is_Some (mpExtSymbolLookupFn (self m)))
                    then [SymbolLookup (mpExtSymbolLookupFnContext (self m))
                                       "__clearThreadable"]
                    else []))).
Proof.
  intros s1 Hyes Hlocks Hobj Hinfo Hread. unfold read_locks_granted in Hlocks.
  repeat (apply andb_prop in Hlocks as [Hlocks ?]).
  repeat match goal with
         | H : negb _ = true |- _ => apply negb_true_iff in H
         end.
  unfold internalLoadCache, acquire. run.
  rewrite store_cache_names_run. fold s1.
  assert (mpExtSymbolLookupFn s1 = mpExtSymbolLookupFn (self m)) as Hfn
    by reflexivity.
  assert (mpExtSymbolLookupFnContext s1 = mpExtSymbolLookupFnContext (self m))
    as Hctx by reflexivity.
  clearbody s1. settle.
  destruct (negb (ScriptCached.isLibRSThreadable c)
            && bool_decide (is_Some (mpExtSymbolLookupFn (self m))));
    cbn; rewrite <- ?app_assoc; cbn; rewrite ?app_nil_r; reflexivity.
Qed.

(** X4: a cache hit. When [prepareExecutable] is called on an Unknown
    unit, the unit is cacheable, both read locks are granted, both files
    open and the reader returns an artifact, the call returns 0 and the
    unit is Cached with that artifact and object type Executable. The file
    system is untouched and the events are exactly: the two read locks
    constructed and acquired (object file first), the two files opened, the
    read, one ["__clearThreadable"] symbol lookup if and only if the cached
    artifact is not threadable and a callback is registered, and the GDB
    registration of the cached code. Nothing is compiled and no write lock
    is taken. The unit's context-slot flag keeps its previous value. *)
Theorem prepareExecutable_cache_hit
    (env : Env) (dir name : string) (flags : Z) (m : Machine)
    (obj info : list Z) (c : ScriptCached.t) (reader' : MCCacheReader.t) :
  let s1 := with_cache_names dir name (self m) in
  mStatus (self m) = ScriptStatus.Unknown ->
  isCacheable env s1 = true ->
  read_locks_granted env s1 = true ->
  InputFile_open env (getCachedObjectPath env s1) (files m) = Some obj ->
  InputFile_open env (getCacheInfoPath env s1) (files m) = Some info ->
  MCCacheReader.readCacheFile (format env) obj info (make_reader env s1)
  = (Some c, reader') ->
  prepareExecutable env (Some dir) (Some name) flags m
  = Some (0, mkMachine
               (set_mObjectType ScriptObject.Executable
                  (set_mStatus ScriptStatus.Cached (set_mCached (Some c) s1)))
               (files m)
               (log m
                ++ [FileMutex_new kReadLock ObjFile (getCachedObjectPath env s1);
                    FileMutex_new kReadLock InfoFile (getCacheInfoPath env s1);
                    FileMutex_lock kReadLock ObjFile
                                   (getCachedObjectPath env s1) true;
                    FileMutex_lock kReadLock InfoFile
                                   (getCacheInfoPath env s1) true;
                    InputFile_new ObjFile (getCachedObjectPath env s1);
                    InputFile_new InfoFile (getCacheInfoPath env s1);
                    Reader_readCacheFile true]
                ++ (if negb (ScriptCached.isLibRSThreadable c)
                       && bool_decide (is_Some (mpExtSymbolLookupFn (self m)))
                    then [SymbolLookup (mpExtSymbolLookupFnContext (self m))
                                       "__clearThreadable"]
                    else [])
                ++ [RegisterObjectWithGDB (ScriptCached.getELF c)
                                          (ScriptCached.getELFSize c)]))
  /\ mIsContextSlotNotAvail s1 = mIsContextSlotNotAvail (self m).
Proof.
  intros s1 Hs Hyes Hlocks Hobj Hinfo Hread. split; [|reflexivity].
  unfold prepareExecutable. run.
  rewrite bool_decide_false by (intros Hne; exact (Hne Hs)).
  rewrite (internalLoadCache_read_hit env dir name m obj info c reader'
             Hyes Hlocks Hobj Hinfo Hread).
  cbn. rewrite bool_decide_false by (intros Hne; exact (Hne eq_refl)).
  erewrite finish_executable_cached by reflexivity.
  cbn. rewrite <- !app_assoc. reflexivity.
Qed.

Lemma prepareExecutable_cache_hit_witness :
  exists m',
    prepareExecutable (Sample_env_slots 1 8) (Some "/cache") (Some "unit") 0
      Sample_machine_with_cache = Some (0, m')
    /\ mStatus (self m') = ScriptStatus.Cached
    /\ mCached (self m') = Some Sample.cached
    /\ mObjectType (self m') = ScriptObject.Executable.
Proof.
  eexists. split.
  - refine (proj1 (prepareExecutable_cache_hit
              (Sample_env_slots 1 8) "/cache" "unit" 0
              Sample_machine_with_cache [127; 69; 76; 70] [1; 2; 3]
              Sample.cached
              (MCCacheReader.readCacheFile
                 (format (Sample_env_slots 1 8)) [127; 69; 76; 70] [1; 2; 3]
                 (make_reader (Sample_env_slots 1 8)
                    (with_cache_names "/cache" "unit" new))).2
              eq_refl eq_refl eq_refl eq_refl eq_refl _)).
    vm_compute. reflexivity.
  - repeat split.
Defined.

(** *** Failures of the compile path *)

(** A miss returns 1. *)
Lemma internalLoadCache_miss_status
    (env : Env) (cacheDir cacheName : option string) (m m1 : Machine) (st : Z) :
  internalLoadCache env cacheDir cacheName false m = Some (st, m1) ->
  st ≠ 0 ->
  st = 1
  /\ mStatus (self m1) = mStatus (self m)
  /\ mObjectType (self m1) = mObjectType (self m)
  /\ mErrorCode (self m1) = mErrorCode (self m)
  /\ files m1 = files m.
Proof.
  intros Hload Hst.
  destruct (internalLoadCache_effect env cacheDir cacheName false m)
    as (st' & m1' & Hload' & Hrc & Hf & He & Ho & _ & _ & _ & _ & _ & _
        & Hmiss).
  rewrite Hload in Hload'. injection Hload' as <- <-.
  destruct Hrc as [-> | ->]; [contradiction|].
  destruct (Hmiss eq_refl) as [Hs _]. repeat split; assumption.
Qed.

(** X5: an allocation failure is reported as an invalid operation. When
    [prepareExecutable] misses the cache and the compiled artifact cannot
    be allocated, the call returns 1 with the unit still Unknown and
    [mCompiled] null. [internalCompile] has set the out-of-memory error
    code, but the error log line of [prepareExecutable] asks for the
    compiler's message, and on a unit that is not Compiled that request
    overwrites the code: the caller reads the invalid-operation value. *)
Theorem prepareExecutable_out_of_memory
    (env : Env) (cacheDir cacheName : option string) (flags : Z)
    (m m1 : Machine) (st : Z) :
  mStatus (self m) = ScriptStatus.Unknown ->
  internalLoadCache env cacheDir cacheName false m = Some (st, m1) ->
  st ≠ 0 ->
  new_ScriptCompiled env = None ->
  prepareExecutable env cacheDir cacheName flags m
  = Some (1, mkMachine
               (set_mErrorCode BCC_INVALID_OPERATION
                  (set_mErrorCode BCC_OUT_OF_MEMORY
                     (set_mCompiled None (self m1))))
               (files m1)
               (log m1 ++ [ScriptCompiled_new false;
                           ALOGE "Out of memory: %s %d\n";
                           ALOGE "LLVM error message: %s\n"]))
  /\ mStatus (self m1) = ScriptStatus.Unknown
  /\ BCC_INVALID_OPERATION ≠ BCC_OUT_OF_MEMORY.
Proof.
  intros Hs Hload Hst Hnew.
  destruct (internalLoadCache_miss_status env cacheDir cacheName m m1 st
              Hload Hst) as (-> & Hs1 & _).
  rewrite Hs in Hs1. split; [|split; [exact Hs1|discriminate]].
  unfold prepareExecutable. run.
  rewrite bool_decide_false by (intros Hne; exact (Hne Hs)).
  rewrite Hload. cbn. rewrite bool_decide_true by discriminate.
  unfold internalCompile, getCompilerErrorMessage. run. settle.
  rewrite <- !app_assoc. reflexivity.
Qed.

Lemma prepareExecutable_out_of_memory_witness :
  exists m',
    prepareExecutable Sample_env_out_of_memory (Some "/cache") (Some "unit") 0
      (Sample.machine new) = Some (1, m')
    /\ mErrorCode (self m') = BCC_INVALID_OPERATION
    /\ mStatus (self m') = ScriptStatus.Unknown.
Proof.
  eexists. split.
  - refine (proj1 (prepareExecutable_out_of_memory
              Sample_env_out_of_memory (Some "/cache") (Some "unit") 0
              (Sample.machine new) Sample_machine_after_miss 1
              eq_refl eq_refl _ eq_refl)).
    discriminate.
  - split; reflexivity.
Defined.

(** X6: a failed compile leaves the unit Compiled. When
    [prepareExecutable] misses the cache, the artifact is allocated and
    [readModule] or [compile] fails, the call returns 1; the unit is in the
    Compiled state with the allocated artifact, its object type and error
    code are what they were, no file is touched and the write path is not
    entered (the events after the miss are the allocation, the failing
    step and two error log lines). The unit cannot be retried: any further
    [prepareExecutable] is rejected as an invalid operation. *)
Theorem prepareExecutable_compile_failed
    (env : Env) (cacheDir cacheName : option string) (flags : Z)
    (m m1 : Machine) (st : Z) (c : ScriptCompiled.t) :
  mStatus (self m) = ScriptStatus.Unknown ->
  internalLoadCache env cacheDir cacheName false m = Some (st, m1) ->
  st ≠ 0 ->
  new_ScriptCompiled env = Some c ->
  readModule_rc env ≠ 0 \/ compile_rc env ≠ 0 ->
  exists m',
    prepareExecutable env cacheDir cacheName flags m = Some (1, m')
    /\ self m'
       = set_mStatus ScriptStatus.Compiled (set_mCompiled (Some c) (self m1))
    /\ mObjectType (self m') = mObjectType (self m)
    /\ mErrorCode (self m') = mErrorCode (self m)
    /\ files m' = files m
    /\ log m'
       = (log m1
          ++ [ScriptCompiled_new true;
              ScriptCompiled_readModule (readModule_rc env)]
          ++ (if bool_decide (readModule_rc env ≠ 0)
              then [ALOGE "Unable to read source module\n"]
              else [ScriptCompiled_compile (compile_rc env);
                    ALOGE "Unable to compile.\n"])
          ++ [ALOGE "LLVM error message: %s\n"])%list
    /\ (forall env2 cacheDir2 cacheName2 flags2,
          prepareExecutable env2 cacheDir2 cacheName2 flags2 m'
          = Some (1, mkMachine
                       (set_mErrorCode BCC_INVALID_OPERATION (self m'))
                       (files m')
                       (log m' ++ [ALOGE "Invalid operation: %s\n"]))).
Proof.
  intros Hs Hload Hst Hnew Hfail.
  destruct (internalLoadCache_miss_status env cacheDir cacheName m m1 st
              Hload Hst) as (-> & Hs1 & Ho1 & He1 & Hf1).
  unfold prepareExecutable at 1. run.
  rewrite bool_decide_false by (intros Hne; exact (Hne Hs)).
  rewrite Hload. cbn. rewrite bool_decide_true by discriminate.
  unfold internalCompile, getCompilerErrorMessage. run.
  rewrite Hnew. cbn.
  destruct (bool_decide_reflect (readModule_rc env ≠ 0)) as [Hr|Hr]; cbn.
  - eexists. split; [reflexivity|]. cbn.
    split; [reflexivity|]. split; [exact Ho1|]. split; [exact He1|].
    split; [exact Hf1|]. split; [rewrite <- !app_assoc; reflexivity|].
    intros env2 d2 n2 f2. unfold prepareExecutable. run. reflexivity.
  - destruct (bool_decide_reflect (compile_rc env ≠ 0)) as [Hc|Hc]; cbn.
    + eexists. split; [reflexivity|]. cbn.
      split; [reflexivity|]. split; [exact Ho1|]. split; [exact He1|].
      split; [exact Hf1|]. split; [rewrite <- !app_assoc; reflexivity|].
      intros env2 d2 n2 f2. unfold prepareExecutable. run. reflexivity.
    + exfalso. destruct Hfail as [?|?]; contradiction.
Qed.

Lemma prepareExecutable_compile_failed_witness :
  exists m',
    prepareExecutable (Sample_env_compile_fails 1)
      (Some "/cache") (Some "unit") 0 (Sample.machine new) = Some (1, m')
    /\ mStatus (self m') = ScriptStatus.Compiled
    /\ files m' = ∅.
Proof.
  assert (readModule_rc (Sample_env_compile_fails 1) ≠ 0
          \/ compile_rc (Sample_env_compile_fails 1) ≠ 0) as Hfail
    by (right; discriminate).
  destruct (prepareExecutable_compile_failed
              (Sample_env_compile_fails 1) (Some "/cache") (Some "unit") 0
              (Sample.machine new) Sample_machine_after_miss 1 Sample.compiled
              eq_refl eq_refl ltac:(discriminate) eq_refl Hfail)
    as (m' & Hrun & Hself & _ & _ & Hfiles & _).
  exists m'. split; [exact Hrun|]. split; [|exact Hfiles].
  rewrite Hself. reflexivity.
Defined.

(** *** The stored cache names *)

Lemma last_char_append_slash (str : string) :
  last_char (str ++ "/") = Some "/"%char.
Proof.
  induction str as [|a str IH]; [reflexivity|].
  cbn [String.append]. destruct str as [|b str]; [reflexivity|].
  exact IH.
Qed.

Lemma sanitize_ends_with_slash (dir : string) :
  dir ≠ "" -> last_char (sanitize dir) = Some "/"%char.
Proof.
  intros Hne. unfold sanitize.
  rewrite (bool_decide_false (dir = "")) by exact Hne. cbn.
  destruct (bool_decide_reflect (last_char dir = Some "/"%char)) as [E|E]; cbn.
  - exact E.
  - apply last_char_append_slash.
Qed.

Lemma sanitize_idempotent (dir : string) : sanitize (sanitize dir) = sanitize dir.
Proof.
  destruct (decide (dir = "")) as [->|Hne]; [reflexivity|].
  pose proof (sanitize_ends_with_slash dir Hne) as Hlast.
  unfold sanitize at 1. rewrite (bool_decide_true _ Hlast).
  rewrite andb_false_r. reflexivity.
Qed.

Lemma internalLoadCache_names
    (env : Env) (dir name : string) (checkOnly : bool) (m : Machine) :
  exists rc m',
    internalLoadCache env (Some dir) (Some name) checkOnly m = Some (rc, m')
    /\ mCacheDir (self m') = sanitize dir
    /\ mCacheName (self m') = name.
Proof.
  unfold internalLoadCache, acquire. run.
  rewrite store_cache_names_run. cbn.
  repeat branch.
  all: do 2 eexists; (split; [reflexivity|]); cbn; split; reflexivity.
Qed.

(** X7: the cache directory is stored with a trailing slash. After
    [internalLoadCache] has been given a directory and a name (whatever it
    then returns), the unit's cache name is the name given and its cache
    directory is the directory given, followed by one slash unless the
    directory is empty or already ends with a slash. So the stored
    directory is empty exactly when the one given is, and otherwise ends
    with a slash; storing the stored directory again changes nothing. With
    a null directory or name the call returns 1 and stores nothing. *)
Theorem internalLoadCache_stores_names
    (env : Env) (dir name : string) (checkOnly : bool) (m : Machine) :
  (exists rc m',
     internalLoadCache env (Some dir) (Some name) checkOnly m = Some (rc, m')
     /\ mCacheName (self m') = name
     /\ (mCacheDir (self m') = dir \/ mCacheDir (self m') = dir ++ "/")
     /\ (mCacheDir (self m') = "" <-> dir = "")
     /\ (dir ≠ "" -> last_char (mCacheDir (self m')) = Some "/"%char)
     /\ (last_char dir = Some "/"%char -> mCacheDir (self m') = dir)
     /\ (exists rc2 m2,
           internalLoadCache env (Some (mCacheDir (self m'))) (Some name)
             checkOnly m' = Some (rc2, m2)
           /\ mCacheDir (self m2) = mCacheDir (self m')))
  /\ internalLoadCache env None (Some name) checkOnly m = Some (1, m)
  /\ internalLoadCache env (Some dir) None checkOnly m = Some (1, m).
Proof.
  split; [|split; reflexivity].
  destruct (internalLoadCache_names env dir name checkOnly m)
    as (rc & m' & Hrun & Hdir & Hname).
  exists rc, m'. split; [exact Hrun|]. split; [exact Hname|].
  rewrite Hdir. split; [|split; [|split; [|split]]].
  - unfold sanitize.
    destruct (negb (bool_decide (dir = ""))
              && negb (bool_decide (last_char dir = Some "/"%char)));
      [by right|by left].
  - apply sanitize_empty_iff.
  - apply sanitize_ends_with_slash.
  - intros Hlast. unfold sanitize. rewrite (bool_decide_true _ Hlast).
    by rewrite andb_false_r.
  - destruct (internalLoadCache_names env (sanitize dir) name checkOnly m')
      as (rc2 & m2 & Hrun2 & Hdir2 & _).
    exists rc2, m2. split; [exact Hrun2|].
    rewrite Hdir2. apply sanitize_idempotent.
Qed.

(** *** Runs on the sample device *)

Lemma internalLoadCache_read_only_witness :
  exists rc m',
    internalLoadCache (Sample_env_slots 1 8) (Some "/cache") (Some "unit") true
      Sample_machine_with_cache = Some (rc, m')
    /\ files m' = files Sample_machine_with_cache
    /\ mStatus (self m') = ScriptStatus.Unknown
    /\ mCached (self m') = None.
Proof.
  destruct (internalLoadCache_read_only (Sample_env_slots 1 8)
              (Some "/cache") (Some "unit") true Sample_machine_with_cache)
    as (rc & m' & Hrun & _ & Hfiles & _ & _ & _ & _ & _ & _ & Hcheck & _).
  destruct (Hcheck eq_refl) as (Hs & Hc & _).
  exists rc, m'. repeat split; assumption.
Defined.

Lemma prepareExecutable_outcome_witness :
  exists rc m',
    prepareExecutable (Sample_env_slots 1 8) (Some "/cache") (Some "unit") 0
      Sample_machine_with_cache = Some (rc, m')
    /\ (rc = 0 \/ rc = 1)
    /\ artifact_present (self m').
Proof.
  destruct (prepareExecutable_outcome (Sample_env_slots 1 8)
              (Some "/cache") (Some "unit") 0 Sample_machine_with_cache I)
    as (rc & m' & Hrun & Hrc & Hwf & _).
  exists rc, m'. repeat split; assumption.
Defined.

Lemma internalLoadCache_stores_names_witness :
  exists rc m',
    internalLoadCache (Sample_env_slots 1 8) (Some "/cache") (Some "unit") false
      (Sample.machine new) = Some (rc, m')
    /\ mCacheName (self m') = "unit"
    /\ mCacheDir (self m') = "/cache/".
Proof.
  destruct (proj1 (internalLoadCache_stores_names (Sample_env_slots 1 8)
              "/cache" "unit" false (Sample.machine new)))
    as (rc & m' & Hrun & Hname & Hdir & _ & Hslash & _).
  exists rc, m'. split; [exact Hrun|]. split; [exact Hname|].
  destruct Hdir as [Hdir|Hdir]; [|exact Hdir].
  assert ("/cache" ≠ "") as Hne by discriminate.
  specialize (Hslash Hne). rewrite Hdir in Hslash. discriminate.
Defined.

End LifecycleFacts.

Module DependencyFacts.
Import MCCacheReader MCCacheReaderFacts.

(** *** The reader's dependency map as the calls build it *)

Lemma addDependencies_lookup
    (l : list (string * SHA1)) (r : t) (k : string) :
  mDependencies (addDependencies l r) !! k
  = match mDependencies r !! k with
    | Some x => Some x
    | None => (list_to_map l : gmap string SHA1) !! k
    end.
Proof.
  rewrite addDependencies_deps.
  destruct (mDependencies r !! k) as [x|] eqn:Hk.
  - by apply lookup_union_Some_l.
  - by apply lookup_union_r.
Qed.

(** X8: [addDependency] never overwrites. After [addDependency n d] the
    map holds for [n] the digest it already had, or [d] if it had none,
    and every other name is as before; a second [addDependency] for the
    same name changes nothing, whatever digest it brings; and no later run
    of calls changes or removes a digest once it is in the map. The
    sticky flag and the symbol callback are not touched. *)
Theorem addDependency_first_wins (n : string) (d : SHA1) (r : t) :
  mDependencies (addDependency n d r) !! n
  = Some (default d (mDependencies r !! n))
  /\ (forall k, k ≠ n ->
        mDependencies (addDependency n d r) !! k = mDependencies r !! k)
  /\ (forall d', addDependency n d' (addDependency n d r) = addDependency n d r)
  /\ (forall l k x,
        mDependencies r !! k = Some x ->
        mDependencies (addDependencies l r) !! k = Some x)
  /\ mIsContextSlotNotAvail (addDependency n d r) = mIsContextSlotNotAvail r
  /\ mpSymbolLookupFn (addDependency n d r) = mpSymbolLookupFn r
  /\ mpSymbolLookupContext (addDependency n d r) = mpSymbolLookupContext r.
Proof.
  split; [|split; [|split; [|split]]].
  - unfold addDependency.
    destruct (mDependencies r !! n) as [x|] eqn:Hn; cbn.
    + exact Hn.
    + apply lookup_insert_eq.
  - intros k Hk. unfold addDependency.
    destruct (mDependencies r !! n) as [x|] eqn:Hn; cbn; [reflexivity|].
    by apply lookup_insert_ne.
  - intros d'. unfold addDependency at 1.
    assert (is_Some (mDependencies (addDependency n d r) !! n)) as [x Hx].
    { unfold addDependency.
      destruct (mDependencies r !! n) as [x|] eqn:Hn; cbn; [eauto|].
      rewrite lookup_insert_eq. eauto. }
    rewrite Hx. reflexivity.
  - intros l k x Hk. rewrite addDependencies_lookup, Hk. reflexivity.
  - apply addDependency_rest.
Qed.

Lemma addDependency_first_wins_witness :
  mDependencies
    (addDependencies [("b.bc", Sample.digest 3)]
       (addDependency "a.bc" (Sample.digest 2)
          (addDependency "a.bc" (Sample.digest 1) new))) !! "a.bc"
  = Some (Sample.digest 1).
Proof.
  refine (proj1 (proj2 (proj2 (proj2
            (addDependency_first_wins "a.bc" (Sample.digest 2)
               (addDependency "a.bc" (Sample.digest 1) new)))))
            [("b.bc", Sample.digest 3)] "a.bc" (Sample.digest 1) _).
  reflexivity.
Defined.

(** The reader set up by the read path holds the map of its ledger. *)
Lemma make_reader_deps (env : Env) (s : RSScript.t) :
  mDependencies (RSScript.make_reader env s)
  = list_to_map (RSScript.reader_ledger env s).
Proof.
  unfold RSScript.make_reader. rewrite addDependencies_deps.
  destruct (RSScript.mpExtSymbolLookupFn s); cbn; apply (left_id_L ∅ (∪)).
Qed.

(** One more entry at the end of a ledger: a new name is added, a used
    name changes nothing. *)
Lemma list_to_map_snoc_lookup
    (l : list (string * SHA1)) (n : string) (d : SHA1) :
  ((list_to_map l : gmap string SHA1) !! n = None ->
     (list_to_map (l ++ [(n, d)]) : gmap string SHA1) = <[n := d]> (list_to_map l))
  /\ (is_Some ((list_to_map l : gmap string SHA1) !! n) ->
        (list_to_map (l ++ [(n, d)]) : gmap string SHA1) = list_to_map l).
Proof.
  split.
  - intros Hn. apply list_to_map_snoc. by apply not_elem_of_list_to_map_2.
  - intros [x Hx]. rewrite list_to_map_app. cbn.
    apply map_eq. intros k. destruct (decide (k = n)) as [->|Hk].
    + rewrite Hx. by apply lookup_union_Some_l.
    + apply lookup_union_l. rewrite lookup_insert_ne by congruence.
      apply lookup_empty.
Qed.

Lemma reader_ledger_addSourceDependency
    (env : Env) (s : RSScript.t) (n : string) (sha : SHA1) :
  new_SourceDependency_ok env = true ->
  RSScript.reader_ledger env (RSScript.addSourceDependency env n sha s).2
  = (RSScript.reader_ledger env s ++ [(n, take 20 sha)])%list.
Proof.
  intros Hok. unfold RSScript.addSourceDependency. rewrite Hok.
  unfold RSScript.reader_ledger. cbn. rewrite map_app. reflexivity.
Qed.

(** X9: the library digests cannot be shadowed, and a repeated name is
    ignored. In the reader [internalLoadCache] sets up, the libbcc path
    always maps to the libbcc digest, and the libRS path to the libRS
    digest unless the two paths coincide; every registered source name is
    a key. Registering one more source dependency under a name that is
    neither a library path nor an earlier source name adds that name with
    the first 20 bytes of its digest; registering it under a name already
    in use leaves the reader's map exactly as it was, so the new digest
    takes no part in the validation. *)
Theorem make_reader_dependencies (env : Env) (s : RSScript.t) :
  let deps := mDependencies (RSScript.make_reader env s) in
  deps !! pathLibBCC_SHA1 env = Some (sha1LibBCC_SHA1 env)
  /\ (pathLibRS env ≠ pathLibBCC_SHA1 env ->
        deps !! pathLibRS env = Some (sha1LibRS env))
  /\ (forall d, d ∈ RSScript.mSourceDependencies s ->
        is_Some (deps !! SourceDependency.getSourceName d))
  /\ (forall n sha,
        new_SourceDependency_ok env = true ->
        let s' := (RSScript.addSourceDependency env n sha s).2 in
        let deps' := mDependencies (RSScript.make_reader env s') in
        (deps !! n = None ->
           deps' !! n = Some (take 20 sha)
           /\ forall k, k ≠ n -> deps' !! k = deps !! k)
        /\ (is_Some (deps !! n) -> deps' = deps)).
Proof.
  intros deps. subst deps. split; [|split; [|split]].
  - rewrite make_reader_deps. apply lookup_insert_eq.
  - intros Hne. rewrite make_reader_deps. cbn.
    rewrite lookup_insert_ne by congruence. apply lookup_insert_eq.
  - intros d Hd. rewrite make_reader_deps.
    destruct (list_to_map (RSScript.reader_ledger env s)
                !! SourceDependency.getSourceName d) as [x|] eqn:Hx; [eauto|].
    apply not_elem_of_list_to_map_2 in Hx. exfalso. apply Hx.
    apply list_elem_of_fmap.
    exists (SourceDependency.getSourceName d,
            SourceDependency.getSHA1Checksum d).
    split; [reflexivity|]. unfold RSScript.reader_ledger.
    do 2 apply list_elem_of_further. apply list_elem_of_In.
    apply (in_map (fun d0 => (SourceDependency.getSourceName d0,
                              SourceDependency.getSHA1Checksum d0))).
    by apply list_elem_of_In.
  - intros n sha Hok s' deps'. subst s' deps'.
    rewrite !make_reader_deps.
    rewrite (reader_ledger_addSourceDependency env s n sha Hok).
    destruct (list_to_map_snoc_lookup (RSScript.reader_ledger env s)
                n (take 20 sha)) as [Hfresh Hused].
    split.
    + intros Hn. rewrite (Hfresh Hn). split.
      * apply lookup_insert_eq.
      * intros k Hk. by apply lookup_insert_ne.
    + intros Hn. exact (Hused Hn).
Qed.

Lemma make_reader_dependencies_witness :
  let s := (RSScript.addSourceDependency Sample_env_out_of_memory
              "foo.bc" (Sample.digest 5) RSScript.new).2 in
  mDependencies
    (RSScript.make_reader Sample_env_out_of_memory
       (RSScript.addSourceDependency Sample_env_out_of_memory
          "foo.bc" (Sample.digest 6) s).2)
  = mDependencies (RSScript.make_reader Sample_env_out_of_memory s).
Proof.
  intros s.
  refine (proj2 (proj2 (proj2 (proj2
            (make_reader_dependencies Sample_env_out_of_memory s)))
            "foo.bc" (Sample.digest 6) eq_refl) _).
  eexists. vm_compute. reflexivity.
Defined.

End DependencyFacts.

Module WritePathFacts.
Import RSScript RSScriptFacts.

(** *** The write path beyond the failed write *)

(** X10: a successful cache write. When the unit is Compiled and
    cacheable, both write locks are granted, both files open and
    [writeCacheFile] succeeds, [writeCache] returns 0 with the unit
    unchanged. The writer has been given the source dependencies in
    registration order (after the two library digests on a target build)
    and the answer of the callback to ["__isThreadable"]. The info file
    holds what the writer wrote, and so does the object file when the two
    paths differ; no other path changes. Nothing is truncated, closed or
    unlinked: the events are the two locks, the two opens, the callback
    lookup if a callback is registered, and the write. *)
Theorem writeCache_success
    (env : Env) (m : Machine) (c : ScriptCompiled.t) (msg : string)
    (objBytes infoBytes : list Z) :
  let s := self m in
  let objPath := getCachedObjectPath env s in
  let infoPath := getCacheInfoPath env s in
  mStatus s = ScriptStatus.Compiled ->
  mCompiled s = Some c ->
  ScriptCompiled.getCompilerErrorMessage c = Some msg ->
  isCacheable env s = true ->
  reaches_writer env s = true ->
  writeCacheFile env (writer_ledger env s) c (libRS_threadable s)
  = (true, objBytes, infoBytes) ->
  exists m',
    writeCache env m = Some (0, m')
    /\ self m' = s
    /\ log m'
       = (log m
          ++ [FileMutex_new kWriteLock ObjFile objPath;
              FileMutex_new kWriteLock InfoFile infoPath;
              FileMutex_lock kWriteLock ObjFile objPath true;
              FileMutex_lock kWriteLock InfoFile infoPath true;
              OutputFile_new ObjFile objPath;
              OutputFile_new InfoFile infoPath]
          ++ match mpExtSymbolLookupFn s with
             | Some _ => [SymbolLookup (mpExtSymbolLookupFnContext s)
                                       "__isThreadable"]
             | None => []
             end
          ++ [Writer_writeCacheFile true])%list
    /\ files m' !! infoPath = Some infoBytes
    /\ (objPath ≠ infoPath -> files m' !! objPath = Some objBytes)
    /\ (forall p, p ≠ objPath -> p ≠ infoPath -> files m' !! p = files m !! p).
Proof.
  intros s objPath infoPath Hs Hc Hmsg Hyes Hreach Hw.
  subst s objPath infoPath. unfold reaches_writer in Hreach.
  repeat (apply andb_prop in Hreach as [Hreach ?]).
  repeat match goal with
         | H : negb _ = true |- _ => apply negb_true_iff in H
         end.
  unfold writeCache, getCompilerErrorMessage, acquire, discard_cache_files.
  unfold libRS_threadable in Hw.
  run. settle.
  destruct (mpExtSymbolLookupFn (self m)) as [fn|]; cbn; settle.
  all: eexists; (split; [reflexivity|]); cbn.
  all: split; [reflexivity|].
  all: split; [rewrite <- ?app_assoc; reflexivity|].
  all: split; [apply lookup_insert_eq|].
  all: split;
    [ intros Hne; rewrite lookup_insert_ne by congruence;
      apply lookup_insert_eq
    | intros p Hpo Hpi; rewrite !lookup_insert_ne by congruence;
      unfold open_for_write; repeat case_match; by simplify_map_eq ].
Qed.

Lemma writeCache_success_witness :
  exists m',
    writeCache
      (Sample.env "0" (fun _ => true) true true 0 (Sample.layout [] 8))
      (Sample.machine Sample.compiled_unit) = Some (0, m')
    /\ files m' !! "/cache/unit.o.info" = Some [1; 2; 3]
    /\ files m' !! "/cache/unit.o" = Some [127; 69; 76; 70].
Proof.
  destruct (writeCache_success
              (Sample.env "0" (fun _ => true) true true 0 (Sample.layout [] 8))
              (Sample.machine Sample.compiled_unit) Sample.compiled ""
              [127; 69; 76; 70] [1; 2; 3]
              eq_refl eq_refl eq_refl eq_refl eq_refl eq_refl)
    as (m' & Hrun & _ & _ & Hinfo & Hobj & _).
  exists m'. split; [exact Hrun|]. split; [exact Hinfo|].
  apply Hobj. discriminate.
Defined.

(** X11: when [writeCache] does not get its locks. On a unit that is not
    Compiled, or whose compiler message is null, [writeCache] returns 1
    and nothing at all changes. On a compiled, cacheable unit for which a
    write lock is in error or refused, it returns 1 with the unit and the
    file system unchanged, and none of the events it adds opens, writes,
    truncates or unlinks a cache file. *)
Theorem writeCache_without_locks (env : Env) (m : Machine) :
  (mStatus (self m) ≠ ScriptStatus.Compiled -> writeCache env m = Some (1, m))
  /\ (forall c,
        mStatus (self m) = ScriptStatus.Compiled ->
        mCompiled (self m) = Some c ->
        ScriptCompiled.getCompilerErrorMessage c = None ->
        writeCache env m = Some (1, m))
  /\ (forall c msg,
        mStatus (self m) = ScriptStatus.Compiled ->
        mCompiled (self m) = Some c ->
        ScriptCompiled.getCompilerErrorMessage c = Some msg ->
        isCacheable env (self m) = true ->
        write_locks_granted env (self m) = false ->
        exists m' tr,
          writeCache env m = Some (1, m')
          /\ self m' = self m
          /\ files m' = files m
          /\ log m' = (log m ++ tr)%list
          /\ forallb (fun e => negb (touches_cache_file e)) tr = true).
Proof.
  split; [|split].
  - intros Hs. unfold writeCache. run.
    rewrite bool_decide_true by exact Hs. reflexivity.
  - intros c Hs Hc Hmsg. unfold writeCache, getCompilerErrorMessage. run.
    settle. reflexivity.
  - intros c msg Hs Hc Hmsg Hyes Hlocks. unfold write_locks_granted in Hlocks.
    unfold writeCache, getCompilerErrorMessage, acquire. run. settle.
    destruct (FileMutex_hasError env kWriteLock
                (getCachedObjectPath env (self m))); cbn in *;
      [do 2 eexists; repeat split;
       [rewrite <- ?app_assoc; reflexivity|reflexivity]|].
    destruct (FileMutex_granted env kWriteLock
                (getCachedObjectPath env (self m))); cbn in *;
      [|do 2 eexists; repeat split;
        [rewrite <- ?app_assoc; reflexivity|reflexivity]].
    destruct (FileMutex_hasError env kWriteLock
                (getCacheInfoPath env (self m))); cbn in *;
      [do 2 eexists; repeat split;
       [rewrite <- ?app_assoc; reflexivity|reflexivity]|].
    destruct (FileMutex_granted env kWriteLock
                (getCacheInfoPath env (self m))); cbn in *;
      [discriminate|].
    do 2 eexists; repeat split;
      [rewrite <- ?app_assoc; reflexivity|reflexivity].
Qed.

Lemma writeCache_without_locks_witness :
  exists m' tr,
    writeCache Sample_env_write_locked (Sample.machine Sample.compiled_unit)
    = Some (1, m')
    /\ files m' = ∅
    /\ log m' = tr
    /\ forallb (fun e => negb (touches_cache_file e)) tr = true.
Proof.
  destruct (proj2 (proj2 (writeCache_without_locks Sample_env_write_locked
              (Sample.machine Sample.compiled_unit)))
              Sample.compiled "" eq_refl eq_refl eq_refl eq_refl eq_refl)
    as (m' & tr & Hrun & _ & Hfiles & Hlog & Hnone).
  exists m', tr. repeat split; assumption.
Defined.

End WritePathFacts.

Module RelocatableFacts.
Import RSScript RSScriptFacts.

(** *** [prepareRelocatable] *)

(** X12: [prepareRelocatable] reports a short write as success. When the
    compile succeeds and the object file opens, the call returns 0 whether
    or not the whole ELF image was written, leaving the unit Compiled.
    Only the object type tells the two apart: it becomes Relocatable
    exactly when [write] reported the full size, and the file then holds
    what was written. After a short write the object type is what it was,
    the file has been closed and unlinked (it is gone when the unlink
    succeeded) and the error is logged. When the file cannot be opened the
    call returns 1 instead. *)
Theorem prepareRelocatable_status
    (env : Env) (out : ObjectOutput) (objPath : string) (RelocModel flags : Z)
    (m : Machine) (c : ScriptCompiled.t) :
  new_ScriptCompiled env = Some c ->
  readModule_rc env = 0 ->
  compile_rc env = 0 ->
  let written :=
    OutputFile_write out objPath (ScriptCompiled.getELF c)
                     (ScriptCompiled.getELFSize c) `mod` 2 ^ size_t_bits out in
  exists rc m',
    prepareRelocatable env out objPath RelocModel flags m = Some (rc, m')
    /\ mStatus (self m') = ScriptStatus.Compiled
    /\ mCompiled (self m') = Some c
    /\ (OutputFile_hasError env objPath = true ->
          rc = 1 /\ mObjectType (self m') = mObjectType (self m)
          /\ files m' = files m)
    /\ (OutputFile_hasError env objPath = false ->
          rc = 0
          /\ (written = ScriptCompiled.getELFSize c ->
                mObjectType (self m') = ScriptObject.Relocatable
                /\ files m' !! objPath
                   = Some (OutputFile_contents out objPath
                             (ScriptCompiled.getELF c)
                             (ScriptCompiled.getELFSize c)))
          /\ (written ≠ ScriptCompiled.getELFSize c ->
                mObjectType (self m') = mObjectType (self m)
                /\ (unlink_rc env objPath = 0 -> files m' !! objPath = None)
                /\ log m'
                   = (log m
                      ++ [ScriptCompiled_new true;
                          ScriptCompiled_readModule 0;
                          ScriptCompiled_compile 0;
                          OutputFile_new ObjFile objPath;
                          File_close ObjFile objPath;
                          Sys_unlink objPath (unlink_rc env objPath);
                          ALOGE "Unable to write ELF to file %s.\n"])%list)).
Proof.
  intros Hnew Hread Hcomp written. subst written.
  unfold prepareRelocatable. run.
  rewrite (internalCompile_ok env m c Hnew Hread Hcomp). cbn.
  rewrite bool_decide_false by (intros Hne; exact (Hne eq_refl)).
  unfold getELF, getELFSize, dispatch. cbn.
  destruct (OutputFile_hasError env objPath); cbn.
  - do 2 eexists. split; [reflexivity|]. cbn.
    repeat split; auto; try discriminate.
  - destruct (bool_decide_reflect
                (OutputFile_write out objPath (ScriptCompiled.getELF c)
                   (ScriptCompiled.getELFSize c) `mod` 2 ^ size_t_bits out
                 ≠ ScriptCompiled.getELFSize c)) as [Hshort|Hfull]; cbn.
    + do 2 eexists. split; [reflexivity|]. cbn.
      repeat split; auto; try discriminate; try contradiction.
      * intros Hrc. unfold sys_unlink. rewrite bool_decide_true by exact Hrc.
        apply lookup_delete_eq.
      * rewrite <- !app_assoc. reflexivity.
    + do 2 eexists. split; [reflexivity|]. cbn.
      repeat split; auto; try discriminate; try contradiction.
      apply lookup_insert_eq.
Qed.

Lemma prepareRelocatable_status_witness :
  exists m',
    prepareRelocatable
      (Sample.env "0" (fun _ => true) true true 0 (Sample.layout [] 8))
      (Sample_output 100) "/data/unit.o" 0 0 (Sample.machine new)
    = Some (0, m')
    /\ mObjectType (self m') = ScriptObject.Unknown
    /\ files m' !! "/data/unit.o" = None.
Proof.
  destruct (prepareRelocatable_status
              (Sample.env "0" (fun _ => true) true true 0 (Sample.layout [] 8))
              (Sample_output 100) "/data/unit.o" 0 0 (Sample.machine new)
              Sample.compiled eq_refl eq_refl eq_refl)
    as (rc & m' & Hrun & _ & _ & _ & Hopen).
  destruct (Hopen eq_refl) as (-> & _ & Hshort).
  assert (100 `mod` 2 ^ 32 ≠ 128) as Hne by discriminate.
  destruct (Hshort Hne) as (Hobj & Hgone & _).
  exists m'. split; [exact Hrun|]. split; [exact Hobj|].
  apply Hgone. reflexivity.
Defined.

(** X13: [prepareRelocatable] does not test the state. Called on a unit
    that is already Compiled while the allocation of the new artifact
    fails, it assigns the null pointer to [mCompiled], leaves the state
    Compiled, and then asks the null artifact for the compiler's message:
    the run goes through a null pointer. Called on a unit that is not
    Compiled, the same allocation failure returns 1 with the
    invalid-operation error code and the state unchanged. *)
Theorem prepareRelocatable_unguarded
    (env : Env) (out : ObjectOutput) (objPath : string) (RelocModel flags : Z)
    (m : Machine) :
  new_ScriptCompiled env = None ->
  (mStatus (self m) = ScriptStatus.Compiled ->
     prepareRelocatable env out objPath RelocModel flags m = None)
  /\ (mStatus (self m) ≠ ScriptStatus.Compiled ->
        prepareRelocatable env out objPath RelocModel flags m
        = Some (1, mkMachine
                     (set_mErrorCode BCC_INVALID_OPERATION
                        (set_mErrorCode BCC_OUT_OF_MEMORY
                           (set_mCompiled None (self m))))
                     (files m)
                     (log m ++ [ScriptCompiled_new false;
                                ALOGE "Out of memory: %s %d\n";
                                ALOGE "LLVM error message: %s\n"]))).
Proof.
  intros Hnew. split; intros Hs.
  - unfold prepareRelocatable, internalCompile, getCompilerErrorMessage.
    run. settle. reflexivity.
  - unfold prepareRelocatable, internalCompile, getCompilerErrorMessage.
    run. rewrite Hnew. cbn.
    rewrite (bool_decide_true (1 ≠ 0)) by discriminate. cbn.
    rewrite bool_decide_true by exact Hs. cbn.
    rewrite <- !app_assoc. reflexivity.
Qed.

Lemma prepareRelocatable_unguarded_witness :
  prepareRelocatable Sample_env_out_of_memory (Sample_output 128)
    "/data/unit.o" 0 0 (Sample.machine Sample.compiled_unit) = None.
Proof.
  refine (proj1 (prepareRelocatable_unguarded Sample_env_out_of_memory
                   (Sample_output 128) "/data/unit.o" 0 0
                   (Sample.machine Sample.compiled_unit) eq_refl) eq_refl).
Defined.

End RelocatableFacts.

Module AccessorFacts.
Import RSScript RSScriptFacts.

(** *** The accessors that take a name or fill a buffer *)

(** X14: what [lookup] and the list accessors do in each state. In the
    Unknown state every one of them sets the invalid-operation error code,
    [lookup] returns null and each buffer comes back as it went in. In the
    Cached state [lookup] and the six list accessors answer from the
    cached artifact and change nothing, but the three name-list accessors
    are not served: they set the invalid-operation error code and leave
    the caller's vector alone. In the Compiled state all ten answer from
    the compiled artifact and change nothing. *)
Theorem list_accessors_by_state
    (v : ArtifactViews) (m : Machine) (name : string) (n : Z)
    (buf : list Z) (kv : list Z * list Z) (infos : list (string * Z * Z))
    (names : list string) :
  (mStatus (self m) = ScriptStatus.Unknown ->
     lookup v name m = Some (0, rejected m)
     /\ getExportVarList v n buf m = Some (buf, rejected m)
     /\ getExportFuncList v n buf m = Some (buf, rejected m)
     /\ getExportForEachList v n buf m = Some (buf, rejected m)
     /\ getPragmaList v n kv m = Some (kv, rejected m)
     /\ getFuncInfoList v n infos m = Some (infos, rejected m)
     /\ getObjectSlotList v n buf m = Some (buf, rejected m)
     /\ getExportVarNameList v names m = Some (names, rejected m)
     /\ getExportFuncNameList v names m = Some (names, rejected m)
     /\ getExportForEachNameList v names m = Some (names, rejected m))
  /\ (forall c,
        mStatus (self m) = ScriptStatus.Cached -> mCached (self m) = Some c ->
        lookup v name m = Some (cached_lookup v c name, m)
        /\ getExportVarList v n buf m
           = Some (cached_getExportVarList v c n buf, m)
        /\ getExportFuncList v n buf m
           = Some (cached_getExportFuncList v c n buf, m)
        /\ getExportForEachList v n buf m
           = Some (cached_getExportForEachList v c n buf, m)
        /\ getPragmaList v n kv m = Some (cached_getPragmaList v c n kv, m)
        /\ getFuncInfoList v n infos m
           = Some (cached_getFuncInfoList v c n infos, m)
        /\ getObjectSlotList v n buf m
           = Some (cached_getObjectSlotList v c n buf, m)
        /\ getExportVarNameList v names m = Some (names, rejected m)
        /\ getExportFuncNameList v names m = Some (names, rejected m)
        /\ getExportForEachNameList v names m = Some (names, rejected m))
  /\ (forall c,
        mStatus (self m) = ScriptStatus.Compiled ->
        mCompiled (self m) = Some c ->
        lookup v name m = Some (compiled_lookup v c name, m)
        /\ getExportVarList v n buf m
           = Some (compiled_getExportVarList v c n buf, m)
        /\ getExportFuncList v n buf m
           = Some (compiled_getExportFuncList v c n buf, m)
        /\ getExportForEachList v n buf m
           = Some (compiled_getExportForEachList v c n buf, m)
        /\ getPragmaList v n kv m = Some (compiled_getPragmaList v c n kv, m)
        /\ getFuncInfoList v n infos m
           = Some (compiled_getFuncInfoList v c n infos, m)
        /\ getObjectSlotList v n buf m
           = Some (compiled_getObjectSlotList v c n buf, m)
        /\ getExportVarNameList v names m
           = Some (compiled_getExportVarNameList v c names, m)
        /\ getExportFuncNameList v names m
           = Some (compiled_getExportFuncNameList v c names, m)
        /\ getExportForEachNameList v names m
           = Some (compiled_getExportForEachNameList v c names, m)).
Proof.
  unfold lookup, getExportVarList, getExportFuncList, getExportForEachList,
    getPragmaList, getFuncInfoList, getObjectSlotList, getExportVarNameList,
    getExportFuncNameList, getExportForEachNameList, delegate,
    delegate_compiled.
  run. split; [|split].
  - intros ->. repeat split.
  - intros c -> ->. repeat split.
  - intros c -> ->. repeat split.
Qed.

Lemma list_accessors_by_state_witness :
  getExportVarNameList Sample_views [] (Sample.machine Sample.cached_unit)
  = Some ([], mkMachine
                (set_mErrorCode BCC_INVALID_OPERATION Sample.cached_unit) ∅ [])
  /\ getExportVarList Sample_views 2 [] (Sample.machine Sample.cached_unit)
     = Some ([2; 2], Sample.machine Sample.cached_unit)
  /\ getExportVarNameList Sample_views [] (Sample.machine Sample.compiled_unit)
     = Some (["x"; "y"], Sample.machine Sample.compiled_unit)
  /\ lookup Sample_views "root" (Sample.machine new)
     = Some (0, mkMachine (set_mErrorCode BCC_INVALID_OPERATION new) ∅ []).
Proof.
  split; [|split; [|split]].
  - destruct (proj1 (proj2 (list_accessors_by_state Sample_views
                (Sample.machine Sample.cached_unit) "" 2 [] ([], []) [] []))
                Sample.cached eq_refl eq_refl)
      as (_ & _ & _ & _ & _ & _ & _ & H & _).
    exact H.
  - destruct (proj1 (proj2 (list_accessors_by_state Sample_views
                (Sample.machine Sample.cached_unit) "" 2 [] ([], []) [] []))
                Sample.cached eq_refl eq_refl)
      as (_ & H & _).
    exact H.
  - destruct (proj2 (proj2 (list_accessors_by_state Sample_views
                (Sample.machine Sample.compiled_unit) "" 2 [] ([], []) [] []))
                Sample.compiled eq_refl eq_refl)
      as (_ & _ & _ & _ & _ & _ & _ & H & _).
    exact H.
  - destruct (proj1 (list_accessors_by_state Sample_views
                (Sample.machine new) "root" 2 [] ([], []) [] []) eq_refl)
      as (H & _).
    exact H.
Defined.

(** What a reset keeps: the callback and its context, the cache names and
    both artifact pointers; the accessors answer the empty value all the
    same. *)
Lemma resetState_keeps (s : t) :
  mpExtSymbolLookupFn (resetState s) = mpExtSymbolLookupFn s
  /\ mpExtSymbolLookupFnContext (resetState s) = mpExtSymbolLookupFnContext s
  /\ mCacheDir (resetState s) = mCacheDir s
  /\ mCacheName (resetState s) = mCacheName s
  /\ mCompiled (resetState s) = mCompiled s
  /\ mCached (resetState s) = mCached s
  /\ getExportVarCount (resetState s) = Some 0
  /\ getExportFuncCount (resetState s) = Some 0
  /\ getExportForEachCount (resetState s) = Some 0
  /\ getPragmaCount (resetState s) = Some 0
  /\ getFuncCount (resetState s) = Some 0
  /\ getObjectSlotCount (resetState s) = Some 0
  /\ getELFSize (resetState s) = Some 0
  /\ getELF (resetState s) = Some 0
  /\ resetState (resetState s) = resetState s.
Proof. repeat split. Qed.

(** The reader is given the unit's callback. *)
Lemma make_reader_callback
    (env : Env) (s : t) (fn : Z -> string -> Z) (ctx : Z) :
  mpExtSymbolLookupFn s = Some fn ->
  mpExtSymbolLookupFnContext s = ctx ->
  MCCacheReader.mpSymbolLookupFn (make_reader env s) = Some fn
  /\ MCCacheReader.mpSymbolLookupContext (make_reader env s) = ctx.
Proof.
  intros Hfn Hctx. unfold make_reader. rewrite Hfn, Hctx.
  destruct (MCCacheReaderFacts.addDependencies_rest
              (reader_ledger env s)
              (MCCacheReader.registerSymbolCallback (Some fn) ctx
                 MCCacheReader.new)) as (_ & -> & ->).
  split; reflexivity.
Qed.

(** X15: a registered callback survives a reset and serves the next load.
    After [registerSymbolCallback] with a function and a context, in any
    state, and a following [doReset], the unit is Unknown and still holds
    that function and context (the source marks them as still to be
    reset). So the reader the next [internalLoadCache] sets up is given
    that function and context for relocation, and the flag the next
    [writeCache] hands the writer is that function's answer to
    ["__isThreadable"] in that context, as a 32-bit value. *)
Theorem callback_survives_reset
    (fn : Z -> string -> Z) (ctx : Z) (m : Machine) :
  exists rc m1,
    registerSymbolCallback (Some fn) ctx m = Some (rc, m1)
    /\ (mStatus (self m) = ScriptStatus.Unknown -> rc = 0)
    /\ (mStatus (self m) ≠ ScriptStatus.Unknown -> rc = 1)
    /\ let s2 := (doReset (self m1)).2 in
       mStatus s2 = ScriptStatus.Unknown
       /\ mpExtSymbolLookupFn s2 = Some fn
       /\ mpExtSymbolLookupFnContext s2 = ctx
       /\ libRS_threadable s2 = fn ctx "__isThreadable" `mod` 2 ^ 32
       /\ forall env dir name,
            MCCacheReader.mpSymbolLookupFn
              (make_reader env (with_cache_names dir name s2)) = Some fn
            /\ MCCacheReader.mpSymbolLookupContext
                 (make_reader env (with_cache_names dir name s2)) = ctx.
Proof.
  assert (exists rc m1,
            registerSymbolCallback (Some fn) ctx m = Some (rc, m1)
            /\ (mStatus (self m) = ScriptStatus.Unknown -> rc = 0)
            /\ (mStatus (self m) ≠ ScriptStatus.Unknown -> rc = 1)
            /\ mpExtSymbolLookupFn (self m1) = Some fn
            /\ mpExtSymbolLookupFnContext (self m1) = ctx)
    as (rc & m1 & Hrun & Hok & Hbad & Hfn & Hctx).
  { unfold registerSymbolCallback. run.
    destruct (bool_decide_reflect (mStatus (self m) ≠ ScriptStatus.Unknown))
      as [Hs|Hs]; cbn; do 2 eexists; (split; [reflexivity|]); cbn;
      repeat split; intros; try reflexivity; try contradiction. }
  exists rc, m1. split; [exact Hrun|]. split; [exact Hok|].
  split; [exact Hbad|]. cbn.
  destruct (resetState_keeps (self m1)) as (Hfn2 & Hctx2 & _).
  rewrite Hfn in Hfn2. rewrite Hctx in Hctx2.
  split; [reflexivity|]. split; [exact Hfn2|]. split; [exact Hctx2|].
  split.
  - unfold libRS_threadable. rewrite Hfn2, Hctx2. reflexivity.
  - intros env dir name. apply make_reader_callback; assumption.
Qed.

End AccessorFacts.

Module LedgerFacts.
Import RSScript.

(** *** The ledgers of the two paths *)

(** X16: the writer's ledger is the reader's only on a target build. Both
    paths list the source dependencies in registration order. On a target
    build [writeCache] hands the writer exactly the ledger
    [internalLoadCache] hands the reader; otherwise the writer's ledger
    lacks the two library entries the reader always starts with. A
    dependency registered with [addSourceDependency] goes to the end of
    both, and after a reset only the library entries are left. *)
Theorem ledgers_of_both_paths (env : Env) (s : t) :
  (TARGET_BUILD env = true -> writer_ledger env s = reader_ledger env s)
  /\ (TARGET_BUILD env = false ->
        reader_ledger env s
        = (pathLibBCC_SHA1 env, sha1LibBCC_SHA1 env)
          :: (pathLibRS env, sha1LibRS env) :: writer_ledger env s)
  /\ (forall n sha,
        new_SourceDependency_ok env = true ->
        writer_ledger env (addSourceDependency env n sha s).2
        = (writer_ledger env s ++ [(n, take 20 sha)])%list
        /\ reader_ledger env (addSourceDependency env n sha s).2
           = (reader_ledger env s ++ [(n, take 20 sha)])%list)
  /\ reader_ledger env (resetState s)
     = [(pathLibBCC_SHA1 env, sha1LibBCC_SHA1 env);
        (pathLibRS env, sha1LibRS env)].
Proof.
  unfold writer_ledger, reader_ledger, addSourceDependency.
  split; [|split; [|split]].
  - intros ->. reflexivity.
  - intros ->. reflexivity.
  - intros n sha ->. cbn. rewrite map_app.
    split; [|reflexivity].
    destruct (TARGET_BUILD env); reflexivity.
  - reflexivity.
Qed.

Lemma ledgers_of_both_paths_witness :
  writer_ledger Sample_env_out_of_memory
    (addSourceDependency Sample_env_out_of_memory "foo.bc" (Sample.digest 5)
       new).2
  = [("/system/lib/libbcc.so.sha1", Sample.digest 1);
     ("/system/lib/libRS.so", Sample.digest 2);
     ("foo.bc", Sample.digest 5)].
Proof.
  rewrite (proj1 (proj1 (proj2 (proj2
             (ledgers_of_both_paths Sample_env_out_of_memory new)))
             "foo.bc" (Sample.digest 5) eq_refl)).
  reflexivity.
Defined.

(** X17: what the write path records, the read path accepts, on a target
    build only. Take the dependency stage of the reader and the table made
    of the ledger [writeCache] hands the writer, for a unit whose ledger
    names are distinct. On a target build the reader set up by
    [internalLoadCache] passes that stage; on any other build it fails it,
    because the reader counts two library entries the writer never
    got. *)
Theorem written_ledger_read_back (env : Env) (s : t) :
  NoDup (reader_ledger env s).*1 ->
  (TARGET_BUILD env = true ->
     MCCacheReader.checkDependency (make_reader env s) (writer_ledger env s)
     = true)
  /\ (TARGET_BUILD env = false ->
        MCCacheReader.checkDependency (make_reader env s) (writer_ledger env s)
        = false).
Proof.
  intros Hnd. split; intros Htarget.
  - unfold writer_ledger. rewrite Htarget. fold (reader_ledger env s).
    unfold make_reader.
    apply MCCacheReaderFacts.checkDependency_same; [|exact Hnd].
    destruct (mpExtSymbolLookupFn s); reflexivity.
  - unfold MCCacheReader.checkDependency.
    rewrite DependencyFacts.make_reader_deps.
    rewrite (map_size_list_to_map _ Hnd).
    unfold writer_ledger, reader_ledger. rewrite Htarget. cbn.
    rewrite bool_decide_false by lia. reflexivity.
Qed.

Lemma written_ledger_read_back_witness :
  MCCacheReader.checkDependency
    (make_reader Sample_env_out_of_memory new)
    (writer_ledger Sample_env_out_of_memory new) = true.
Proof.
  refine (proj1 (written_ledger_read_back Sample_env_out_of_memory new _)
            eq_refl).
  apply (bool_decide_unpack _). vm_compute. exact I.
Defined.

End LedgerFacts.

Module CachePathFacts.
Import RSScript RSScriptFacts LifecycleFacts.

(** *** When the cache path is skipped *)









End CachePathFacts.
